(** * The user library routes of app.js

    A shallow embedding of the six routes of [src/app.js] that sit behind
    [requireLogin]: save-video, like-video, unlike-video, unsave-video,
    saved-videos and liked-videos.

    - The SQLite database is a record of tables; a table is the list of its
      rows in rowid order.  Columns the source binds from JavaScript values
      are nullable ([option]), as SQLite columns are.
    - A handler is a computation in a small state monad over the [World]:
      the database and the chronological trace of the calls made to sqlite3
      ([db.run], [db.all]) and to the upstream service ([axios.get]).
    - What the handlers cannot decide themselves comes from an [Env]: the
      value of CURRENT_TIMESTAMP and the outcome of each upstream request.

    I/O failures of the database file are not modelled: [db.run] reports an
    error only when a constraint of the schema is violated. *)

From Stdlib Require Import ZArith String List Bool Lia.
From Stdlib Require Import Sorting.Sorted Sorting.Permutation.
Import ListNotations.
Open Scope Z_scope.

(* ------------------------------------------------------------------ *)
(** ** JavaScript values that reach the handlers *)

Module Js.

(** A field of the parsed JSON body after destructuring: the key may be
    absent ([undefined]), [null], or a string.  The spec types the four
    video fields as strings. *)
Inductive Field :=
| Undefined
| Null
| Str (s : string).

Definition string_nonempty (s : string) : bool :=
  match s with
  | EmptyString => false
  | String _ _ => true
  end.

(** ToBoolean on a field; [!x] is [negb (truthy x)]. *)
Definition truthy (v : Field) : bool :=
  match v with
  | Undefined => false
  | Null => false
  | Str s => string_nonempty s
  end.

(** ToBoolean on [req.session.userId]: undefined when nobody logged in,
    otherwise the number stored by the login route. *)
Definition truthy_num (v : option Z) : bool :=
  match v with
  | None => false
  | Some n => negb (n =? 0)
  end.

(** [s.includes(sub)] *)
Definition includes (s sub : string) : bool :=
  match String.index 0 sub s with
  | Some _ => true
  | None => false
  end.

(** A settled promise. *)
Inductive Settled (A : Type) :=
| Fulfilled (v : A)
| Rejected.
Arguments Fulfilled {A} v.
Arguments Rejected {A}.

(** [Promise.all]: the array of all values, in the order of the input
    array, when every promise fulfils; a rejection as soon as one
    rejects.  The rejection reason is not kept: the only caller ignores it. *)
Fixpoint promise_all {A : Type} (ps : list (Settled A)) : Settled (list A) :=
  match ps with
  | [] => Fulfilled []
  | Rejected :: _ => Rejected
  | Fulfilled v :: ps' =>
      match promise_all ps' with
      | Fulfilled vs => Fulfilled (v :: vs)
      | Rejected => Rejected
      end
  end.

(** A value interpolated in a template literal. *)
Definition template_text (v : option string) : string :=
  match v with
  | Some s => s
  | None => "null"
  end.

End Js.

(* ------------------------------------------------------------------ *)
(** ** The database *)

Module Sql.

(** A row of [saved_videos] (CREATE TABLE, lines 28-39). *)
Record SavedRow := {
  sv_id : Z;
  sv_user_id : option Z;
  sv_video_id : option string;
  sv_title : option string;
  sv_thumbnail : option string;
  sv_channel : option string;
  sv_saved_at : Z
}.

(** A row of [liked_videos] (CREATE TABLE, lines 41-49). *)
Record LikedRow := {
  lk_id : Z;
  lk_user_id : option Z;
  lk_video_id : option string;
  lk_liked_at : Z
}.

(** Each table with the counter that sqlite_sequence keeps for its
    AUTOINCREMENT key. *)
Record Database := {
  saved_videos : list SavedRow;
  saved_seq : Z;
  liked_videos : list LikedRow;
  liked_seq : Z
}.

(** The columns of [liked_videos] that a UNIQUE constraint can name. *)
Inductive LikedColumn := ColUserId | ColVideoId.

(** The UNIQUE constraints that CREATE TABLE liked_videos declares on
    those columns: the statement has none. *)
Definition liked_videos_unique : list (list LikedColumn) := [].

(** Binding a JavaScript value to a parameter: [null] and an unbound
    parameter are NULL. *)
Definition bind_text (v : Js.Field) : option string :=
  match v with
  | Js.Str s => Some s
  | Js.Undefined | Js.Null => None
  end.

(** [column = ?]: a comparison with NULL is never true. *)
Definition eq_int (col param : option Z) : bool :=
  match col, param with
  | Some a, Some b => a =? b
  | _, _ => false
  end.

Definition eq_text (col param : option string) : bool :=
  match col, param with
  | Some a, Some b => String.eqb a b
  | _, _ => false
  end.

(** INTEGER PRIMARY KEY AUTOINCREMENT: one more than the largest rowid
    the table has ever held. *)
Definition autoincrement (seq : Z) (ids : list Z) : Z :=
  Z.max seq (fold_right Z.max 0 ids) + 1.

(** Two rows agree on a column; as in SQLite, NULL agrees with nothing. *)
Definition liked_agree (c : LikedColumn) (r1 r2 : LikedRow) : bool :=
  match c with
  | ColUserId => eq_int (lk_user_id r1) (lk_user_id r2)
  | ColVideoId => eq_text (lk_video_id r1) (lk_video_id r2)
  end.

(** For one of the keys of [uniq], [rows] already has a row that agrees
    with [r] on every column of the key. *)
Definition liked_conflict (uniq : list (list LikedColumn))
           (rows : list LikedRow) (r : LikedRow) : bool :=
  existsb (fun key => existsb (fun r' => forallb (fun c => liked_agree c r' r) key) rows)
          uniq.

(** WHERE user_id = ? AND video_id = ? *)
Definition saved_matches (user_id : option Z) (video_id : option string)
           (r : SavedRow) : bool :=
  eq_int (sv_user_id r) user_id && eq_text (sv_video_id r) video_id.

Definition liked_matches (user_id : option Z) (video_id : option string)
           (r : LikedRow) : bool :=
  eq_int (lk_user_id r) user_id && eq_text (lk_video_id r) video_id.

(** ORDER BY key DESC, as a stable insertion sort: rows with equal keys
    stay in rowid order. *)
Fixpoint insert_desc {A : Type} (key : A -> Z) (x : A) (l : list A) : list A :=
  match l with
  | [] => [x]
  | y :: l' =>
      if key y <=? key x then x :: l else y :: insert_desc key x l'
  end.

Definition order_by_desc {A : Type} (key : A -> Z) (l : list A) : list A :=
  fold_right (insert_desc key) [] l.

(** [key] descending: a row is at least as recent as the rows after it. *)
Definition desc {A : Type} (key : A -> Z) (a b : A) : Prop := key b <= key a.

(** What the callback of [db.run] sees: [err], [this.lastID],
    [this.changes]. *)
Record RunResult := {
  err : option string;
  lastID : Z;
  changes : Z
}.

Definition run_ok (id n : Z) : RunResult :=
  {| err := None; lastID := id; changes := n |}.

Definition run_error (msg : string) : RunResult :=
  {| err := Some msg; lastID := 0; changes := 0 |}.

(** INSERT INTO saved_videos (user_id, video_id, title, thumbnail, channel)
    VALUES (?, ?, ?, ?, ?); [saved_at] takes CURRENT_TIMESTAMP.  The
    table has no constraint an insert can violate. *)
Definition insert_saved (now : Z) (user_id : option Z)
           (video_id title thumbnail channel : option string)
           (d : Database) : RunResult * Database :=
  let id := autoincrement (saved_seq d) (map sv_id (saved_videos d)) in
  let row := {| sv_id := id; sv_user_id := user_id; sv_video_id := video_id;
                sv_title := title; sv_thumbnail := thumbnail;
                sv_channel := channel; sv_saved_at := now |} in
  (run_ok id 1,
   {| saved_videos := saved_videos d ++ [row]; saved_seq := id;
      liked_videos := liked_videos d; liked_seq := liked_seq d |}).

(** INSERT INTO liked_videos (user_id, video_id) VALUES (?, ?) on a table
    whose UNIQUE constraints are [uniq]. *)
Definition insert_liked (uniq : list (list LikedColumn)) (now : Z)
           (user_id : option Z) (video_id : option string)
           (d : Database) : RunResult * Database :=
  let id := autoincrement (liked_seq d) (map lk_id (liked_videos d)) in
  let row := {| lk_id := id; lk_user_id := user_id; lk_video_id := video_id;
                lk_liked_at := now |} in
  if liked_conflict uniq (liked_videos d) row
  then (run_error "SQLITE_CONSTRAINT: UNIQUE constraint failed: liked_videos", d)
  else (run_ok id 1,
        {| saved_videos := saved_videos d; saved_seq := saved_seq d;
           liked_videos := liked_videos d ++ [row]; liked_seq := id |}).

(** DELETE FROM liked_videos WHERE user_id = ? AND video_id = ? *)
Definition delete_liked (user_id : option Z) (video_id : option string)
           (d : Database) : RunResult * Database :=
  let gone := filter (liked_matches user_id video_id) (liked_videos d) in
  let kept := filter (fun r => negb (liked_matches user_id video_id r)) (liked_videos d) in
  (run_ok 0 (Z.of_nat (length gone)),
   {| saved_videos := saved_videos d; saved_seq := saved_seq d;
      liked_videos := kept; liked_seq := liked_seq d |}).

(** DELETE FROM saved_videos WHERE user_id = ? AND video_id = ? *)
Definition delete_saved (user_id : option Z) (video_id : option string)
           (d : Database) : RunResult * Database :=
  let gone := filter (saved_matches user_id video_id) (saved_videos d) in
  let kept := filter (fun r => negb (saved_matches user_id video_id r)) (saved_videos d) in
  (run_ok 0 (Z.of_nat (length gone)),
   {| saved_videos := kept; saved_seq := saved_seq d;
      liked_videos := liked_videos d; liked_seq := liked_seq d |}).

(** ... FROM saved_videos WHERE user_id = ? ORDER BY saved_at DESC *)
Definition select_saved (user_id : option Z) (d : Database) : list SavedRow :=
  order_by_desc sv_saved_at
    (filter (fun r => eq_int (sv_user_id r) user_id) (saved_videos d)).

(** ... FROM liked_videos WHERE user_id = ? ORDER BY liked_at DESC *)
Definition select_liked (user_id : option Z) (d : Database) : list LikedRow :=
  order_by_desc lk_liked_at
    (filter (fun r => eq_int (lk_user_id r) user_id) (liked_videos d)).

End Sql.

(* ------------------------------------------------------------------ *)
(** ** Requests, responses and the upstream service *)

Module Body.
(** [const { videoId, title, thumbnail, channel } = req.body] *)
Record t := {
  videoId : Js.Field;
  title : Js.Field;
  thumbnail : Js.Field;
  channel : Js.Field
}.
End Body.

Module Stream.
(** [response.data] of GET /streams/:videoId, the fields the source reads. *)
Record t := {
  title : string;
  thumbnailUrl : string;
  uploader : string;
  duration : Z
}.
End Stream.

Module Saved.
(** An element of the saved-videos response: the SELECT list of line 291. *)
Record t := {
  videoId : option string;
  title : option string;
  thumbnail : option string;
  channel : option string;
  savedAt : Z
}.
End Saved.

Module Liked.
(** An element of the liked-videos response (lines 316-322). *)
Record t := {
  videoId : option string;
  title : string;
  thumbnail : string;
  channel : string;
  duration : Z
}.
End Liked.

Module App.
Import Js Sql.

Definition PIPED_API_BASE : string := "https://pipedapi.kavin.rocks".

Record Request := {
  session_userId : option Z;
  body : Body.t;
  params_videoId : string
}.

Inductive Json :=
| JError (error : string)
| JSavedId (savedId : Z)
| JLikeId (likeId : Z)
| JSuccess
| JSavedVideos (videos : list Saved.t)
| JVideoDetails (videoDetails : list Liked.t).

Record Response := {
  status : Z;
  json : Json
}.

(** [res.status(code).json(j)] and [res.json(j)] *)
Definition res_status_json (code : Z) (j : Json) : Response :=
  {| status := code; json := j |}.

Definition res_json (j : Json) : Response :=
  {| status := 200; json := j |}.

(** The calls a handler makes, in the order it makes them. *)
Inductive Event :=
| DbRun (sql : string)
| DbAll (sql : string)
| AxiosGet (url : string).

Record World := {
  db : Database;
  trace : list Event
}.

(** The environment of one request: the clock of the database and the
    outcome of the [n]-th upstream request of the fan-out, for its URL. *)
Record Env := {
  now : Z;
  upstream : nat -> string -> Settled Stream.t
}.

Definition IO (A : Type) : Type := World -> A * World.

Definition ret {A : Type} (a : A) : IO A := fun w => (a, w).

Definition bind {A B : Type} (m : IO A) (k : A -> IO B) : IO B :=
  fun w => let (a, w') := m w in k a w'.

Notation "x <- m ;; k" := (bind m (fun x => k))
  (at level 100, m at next level, right associativity).

Definition emit (e : Event) : IO unit :=
  fun w => (tt, {| db := db w; trace := trace w ++ [e] |}).

(** [db.run(sql, params, callback)]: the result is what the callback sees. *)
Definition db_run (sql : string) (stmt : Database -> RunResult * Database)
  : IO RunResult :=
  _ <- emit (DbRun sql) ;;
  fun w => let (r, d) := stmt (db w) in (r, {| db := d; trace := trace w |}).

(** [db.all(sql, params, callback)]: the rows the callback sees.  A query
    violates no constraint, so the callback's [err] is always null here and
    the handlers' branch for it is left out. *)
Definition db_all {A : Type} (sql : string) (query : Database -> list A)
  : IO (list A) :=
  _ <- emit (DbAll sql) ;;
  fun w => (query (db w), w).

(** [axios.get(url)], the [n]-th request of the fan-out. *)
Definition axios_get (env : Env) (n : nat) (url : string)
  : IO (Settled Stream.t) :=
  _ <- emit (AxiosGet url) ;;
  ret (upstream env n url).

(** *** The handlers *)

(** [requireLogin(req, res, next)] (lines 74-79) *)
Definition requireLogin (req : Request) (next : IO Response) : IO Response :=
  if negb (truthy_num (session_userId req))
  then ret (res_status_json 401 (JError "Unauthorized"))
  else next.

Definition SQL_INSERT_SAVED : string :=
  "INSERT INTO saved_videos (user_id, video_id, title, thumbnail, channel) VALUES (?, ?, ?, ?, ?)".
Definition SQL_INSERT_LIKED : string :=
  "INSERT INTO liked_videos (user_id, video_id) VALUES (?, ?)".
Definition SQL_DELETE_LIKED : string :=
  "DELETE FROM liked_videos WHERE user_id = ? AND video_id = ?".
Definition SQL_DELETE_SAVED : string :=
  "DELETE FROM saved_videos WHERE user_id = ? AND video_id = ?".
Definition SQL_SELECT_SAVED : string :=
  "SELECT video_id as videoId, title, thumbnail, channel, saved_at as savedAt FROM saved_videos WHERE user_id = ? ORDER BY saved_at DESC".
Definition SQL_SELECT_LIKED : string :=
  "SELECT video_id as videoId FROM liked_videos WHERE user_id = ? ORDER BY liked_at DESC".

(** POST /api/save-video (lines 212-229) *)
Definition save_video (env : Env) (req : Request) : IO Response :=
  let videoId := Body.videoId (body req) in
  let title := Body.title (body req) in
  let thumbnail := Body.thumbnail (body req) in
  let channel := Body.channel (body req) in
  if negb (truthy videoId) || negb (truthy title)
     || negb (truthy thumbnail) || negb (truthy channel)
  then ret (res_status_json 400 (JError "All video fields are required"))
  else
    this <- db_run SQL_INSERT_SAVED
              (insert_saved (now env) (session_userId req) (bind_text videoId)
                 (bind_text title) (bind_text thumbnail) (bind_text channel)) ;;
    match err this with
    | Some _ => ret (res_status_json 500 (JError "Database error"))
    | None => ret (res_json (JSavedId (lastID this)))
    end.

(** POST /api/like-video (lines 231-251), on a [liked_videos] table whose
    UNIQUE constraints are [uniq]. *)
Definition like_video_on (uniq : list (list LikedColumn))
           (env : Env) (req : Request) : IO Response :=
  let videoId := Body.videoId (body req) in
  if negb (truthy videoId)
  then ret (res_status_json 400 (JError "Video ID is required"))
  else
    this <- db_run SQL_INSERT_LIKED
              (insert_liked uniq (now env) (session_userId req) (bind_text videoId)) ;;
    match err this with
    | Some message =>
        if includes message "UNIQUE constraint failed"
        then ret (res_status_json 400 (JError "Video already liked"))
        else ret (res_status_json 500 (JError "Database error"))
    | None => ret (res_json (JLikeId (lastID this)))
    end.

(** The route as the source runs it: on the table of lines 41-49. *)
Definition like_video : Env -> Request -> IO Response :=
  like_video_on liked_videos_unique.

(** DELETE /api/unlike-video/:videoId (lines 253-269) *)
Definition unlike_video (env : Env) (req : Request) : IO Response :=
  let videoId := params_videoId req in
  this <- db_run SQL_DELETE_LIKED
            (delete_liked (session_userId req) (Some videoId)) ;;
  match err this with
  | Some _ => ret (res_status_json 500 (JError "Database error"))
  | None =>
      if changes this =? 0
      then ret (res_status_json 404 (JError "Like not found"))
      else ret (res_json JSuccess)
  end.

(** DELETE /api/unsave-video/:videoId (lines 271-287) *)
Definition unsave_video (env : Env) (req : Request) : IO Response :=
  let videoId := params_videoId req in
  this <- db_run SQL_DELETE_SAVED
            (delete_saved (session_userId req) (Some videoId)) ;;
  match err this with
  | Some _ => ret (res_status_json 500 (JError "Database error"))
  | None =>
      if changes this =? 0
      then ret (res_status_json 404 (JError "Saved video not found"))
      else ret (res_json JSuccess)
  end.

Definition saved_of_row (r : SavedRow) : Saved.t :=
  {| Saved.videoId := sv_video_id r; Saved.title := sv_title r;
     Saved.thumbnail := sv_thumbnail r; Saved.channel := sv_channel r;
     Saved.savedAt := sv_saved_at r |}.

(** GET /api/saved-videos (lines 289-300) *)
Definition saved_videos_list (env : Env) (req : Request) : IO Response :=
  videos <- db_all SQL_SELECT_SAVED
              (fun d => map saved_of_row (select_saved (session_userId req) d)) ;;
  ret (res_json (JSavedVideos videos)).

(** The [videoId] column of the rows the liked-videos query returns:
    the spec's listLikedIds. *)
Definition listLikedIds (user_id : option Z) (d : Database) : list (option string) :=
  map lk_video_id (select_liked user_id d).

Definition streams_url (videoId : option string) : string :=
  (PIPED_API_BASE ++ "/streams/" ++ template_text videoId)%string.

(** The object an async callback of line 314 returns once its request
    has settled. *)
Definition details (videoId : option string) (response : Settled Stream.t)
  : Settled Liked.t :=
  match response with
  | Fulfilled data =>
      Fulfilled {| Liked.videoId := videoId;
                   Liked.title := Stream.title data;
                   Liked.thumbnail := Stream.thumbnailUrl data;
                   Liked.channel := Stream.uploader data;
                   Liked.duration := Stream.duration data |}
  | Rejected => Rejected
  end.

(** [likes.map(async like => ...)]: [map] calls the callback on every
    element in order, and each call issues its request before it
    suspends; the result is the array of promises.  [n] numbers the
    requests. *)
Fixpoint fan_out (env : Env) (n : nat) (likes : list (option string))
  : IO (list (Settled Liked.t)) :=
  match likes with
  | [] => ret []
  | videoId :: rest =>
      response <- axios_get env n (streams_url videoId) ;;
      promises <- fan_out env (S n) rest ;;
      ret (details videoId response :: promises)
  end.

(** GET /api/liked-videos (lines 302-331) *)
Definition liked_videos_list (env : Env) (req : Request) : IO Response :=
  likes <- db_all SQL_SELECT_LIKED (listLikedIds (session_userId req)) ;;
  promises <- fan_out env 0 likes ;;
  match promise_all promises with
  | Fulfilled videoDetails => ret (res_json (JVideoDetails videoDetails))
  | Rejected => ret (res_status_json 500 (JError "Failed to fetch video details"))
  end.

(** The six routes registered with [requireLogin] in front of the handler. *)
Inductive Route :=
| PostSaveVideo
| PostLikeVideo
| DeleteUnlikeVideo
| DeleteUnsaveVideo
| GetSavedVideos
| GetLikedVideos.

Definition handler (r : Route) : Env -> Request -> IO Response :=
  match r with
  | PostSaveVideo => save_video
  | PostLikeVideo => like_video
  | DeleteUnlikeVideo => unlike_video
  | DeleteUnsaveVideo => unsave_video
  | GetSavedVideos => saved_videos_list
  | GetLikedVideos => liked_videos_list
  end.

Definition serve (r : Route) (env : Env) (req : Request) : IO Response :=
  requireLogin req (handler r env req).

(** *** Vocabulary of the statements *)

(** The request carries the session of user [uid]: the login route stored
    the user's rowid, which AUTOINCREMENT never makes 0. *)
Definition logged_in (req : Request) (uid : Z) : Prop :=
  session_userId req = Some uid /\ uid <> 0.

(** A body field that is missing or empty, and one that is a non-empty
    string. *)
Definition missing_or_empty (v : Field) : Prop :=
  v = Undefined \/ v = Null \/ v = Str "".

Definition non_empty (v : Field) : Prop :=
  exists s, v = Str s /\ s <> ""%string.

(** The number of entries of (user, video) in each store. *)
Definition saved_count (uid : Z) (videoId : string) (d : Database) : nat :=
  length (filter (saved_matches (Some uid) (Some videoId)) (saved_videos d)).

Definition liked_count (uid : Z) (videoId : string) (d : Database) : nat :=
  length (filter (liked_matches (Some uid) (Some videoId)) (liked_videos d)).

(** The rows of [liked_videos] that belong to the user. *)
Definition likes_of (uid : Z) (d : Database) : list LikedRow :=
  filter (fun r => eq_int (lk_user_id r) (Some uid)) (liked_videos d).

(** The promises of the fan-out, without the trace. *)
Fixpoint outcomes (env : Env) (n : nat) (likes : list (option string))
  : list (Settled Liked.t) :=
  match likes with
  | [] => []
  | videoId :: rest =>
      details videoId (upstream env n (streams_url videoId))
      :: outcomes env (S n) rest
  end.

(** The world after further calls [evs] that left the database alone. *)
Definition traced (w : World) (evs : list Event) : World :=
  {| db := db w; trace := trace w ++ evs |}.

(** The request with another [videoId] in its body. *)
Definition with_videoId (req : Request) (v : Field) : Request :=
  {| session_userId := session_userId req;
     body := {| Body.videoId := v; Body.title := Body.title (body req);
                Body.thumbnail := Body.thumbnail (body req);
                Body.channel := Body.channel (body req) |};
     params_videoId := params_videoId req |}.

End App.

(* ------------------------------------------------------------------ *)
(** ** Sample requests and worlds *)

Module Sample.
Import Js Sql App.

Definition empty_db : Database :=
  {| saved_videos := []; saved_seq := 0; liked_videos := []; liked_seq := 0 |}.

Definition fresh : World := {| db := empty_db; trace := [] |}.

Definition metadata : Stream.t :=
  {| Stream.title := "Some title"; Stream.thumbnailUrl := "https://img/0.jpg";
     Stream.uploader := "Some channel"; Stream.duration := 212 |}.

(** An upstream that answers every request, and one that fails for B. *)
Definition up (n : nat) (url : string) : Settled Stream.t :=
  Fulfilled metadata.

Definition b_down (n : nat) (url : string) : Settled Stream.t :=
  if String.eqb url (streams_url (Some "B"%string)) then Rejected
  else Fulfilled metadata.

Definition at_time (t : Z) : Env := {| now := t; upstream := up |}.

Definition at_time_b_down (t : Z) : Env := {| now := t; upstream := b_down |}.

(** A request of user 1 about one video. *)
Definition alice (videoId : string) : Request :=
  {| session_userId := Some 1;
     body := {| Body.videoId := Str videoId; Body.title := Str "Some title";
                Body.thumbnail := Str "https://img/0.jpg";
                Body.channel := Str "Some channel" |};
     params_videoId := videoId |}.

(** The same request without a session. *)
Definition anonymous (videoId : string) : Request :=
  {| session_userId := None; body := body (alice videoId);
     params_videoId := videoId |}.

Definition after {A : Type} (m : IO A) (w : World) : World := snd (m w).

(** User 1 liked A at time 1, B at time 2 and C at time 3. *)
Definition liked_ABC : World :=
  after (serve PostLikeVideo (at_time 3) (alice "C"))
    (after (serve PostLikeVideo (at_time 2) (alice "B"))
       (after (serve PostLikeVideo (at_time 1) (alice "A")) fresh)).

(** User 1 saved A twice. *)
Definition saved_AA : World :=
  after (serve PostSaveVideo (at_time 2) (alice "A"))
    (after (serve PostSaveVideo (at_time 1) (alice "A")) fresh).

End Sample.

(* ------------------------------------------------------------------ *)
(** ** Vocabulary for the library as a whole *)

Module Library.
Import Js Sql App.

(** The rows of [saved_videos] that belong to the user. *)
Definition saves_of (uid : Z) (d : Database) : list SavedRow :=
  filter (fun r => eq_int (sv_user_id r) (Some uid)) (saved_videos d).

(** The primary keys of a table are distinct and none is above the
    counter of its AUTOINCREMENT key. *)
Definition keys_ok (seq : Z) (ids : list Z) : Prop :=
  NoDup ids /\ Forall (fun i => i <= seq) ids.

Definition db_ok (d : Database) : Prop :=
  keys_ok (saved_seq d) (map sv_id (saved_videos d))
  /\ keys_ok (liked_seq d) (map lk_id (liked_videos d)).

(** A request as the server receives it, and a sequence of them served
    one after the other. *)
Record Call := {
  call_route : Route;
  call_env : Env;
  call_request : Request
}.

Definition serve_all (calls : list Call) (w : World) : World :=
  fold_left (fun w' c => snd (serve (call_route c) (call_env c) (call_request c) w'))
            calls w.

(** User 1 liked A, B, C and then A again. *)
Definition liked_ABCA : World :=
  Sample.after (serve PostLikeVideo (Sample.at_time 4) (Sample.alice "A"))
    Sample.liked_ABC.

(** User 1 unlikes A at time 2; user 1 unsaves A at time 2. *)
Definition unlike_A : Call :=
  {| call_route := DeleteUnlikeVideo; call_env := Sample.at_time 2;
     call_request := Sample.alice "A" |}.

Definition unsave_A : Call :=
  {| call_route := DeleteUnsaveVideo; call_env := Sample.at_time 2;
     call_request := Sample.alice "A" |}.

(** The video id a request binds in the statement of its route: the body's
    [videoId] for the two POST routes, the path parameter for the two
    DELETE routes; the GET routes run no statement that writes. *)
Definition target (r : Route) (req : Request) : option string :=
  match r with
  | PostSaveVideo | PostLikeVideo => bind_text (Body.videoId (body req))
  | DeleteUnlikeVideo | DeleteUnsaveVideo => Some (params_videoId req)
  | GetSavedVideos | GetLikedVideos => None
  end.

End Library.

(* ------------------------------------------------------------------ *)
(** ** Accounts: register, login and the user route

    The [users] table lives in the same database; the routes below touch
    no other table, so they run on the table alone.  bcrypt is a parameter:
    what [bcrypt.hash] and [bcrypt.compare] settle to is not decided by the
    source. *)

Module Credentials.
(** [const { email, password, name } = req.body] *)
Record t := {
  email : Js.Field;
  password : Js.Field;
  name : Js.Field
}.
End Credentials.

Module Identity.
(** The object [{ id, email, name }] of lines 132-136 and of the SELECT of
    line 152. *)
Record t := {
  id : Z;
  email : option string;
  name : option string
}.
End Identity.

Module Account.
Import Js Sql.

(** A row of [users] (CREATE TABLE, lines 18-26). *)
Record UserRow := {
  us_id : Z;
  us_email : option string;
  us_password : option string;
  us_name : option string;
  us_created_at : Z
}.

Record Users := {
  users : list UserRow;
  users_seq : Z
}.

(** [email TEXT UNIQUE]: a row already has this email.  NULL conflicts
    with nothing. *)
Definition email_conflict (email : option string) (t : Users) : bool :=
  existsb (fun r => eq_text (us_email r) email) (users t).

(** INSERT INTO users (email, password, name) VALUES (?, ?, ?) *)
Definition insert_user (now : Z) (email password name : option string)
           (t : Users) : RunResult * Users :=
  let id := autoincrement (users_seq t) (map us_id (users t)) in
  let row := {| us_id := id; us_email := email; us_password := password;
                us_name := name; us_created_at := now |} in
  if email_conflict email t
  then (run_error "SQLITE_CONSTRAINT: UNIQUE constraint failed: users.email", t)
  else (run_ok id 1, {| users := users t ++ [row]; users_seq := id |}).

(** [db.get]: the first row of SELECT ... FROM users WHERE email = ?, in
    rowid order, or undefined.  As for [db.all], the callback's [err] is
    always null here and the handlers' branch for it is left out. *)
Definition get_by_email (email : option string) (t : Users) : option UserRow :=
  find (fun r => eq_text (us_email r) email) (users t).

(** [db.get]: the first row of SELECT ... FROM users WHERE id = ? *)
Definition get_by_id (id : option Z) (t : Users) : option UserRow :=
  find (fun r => eq_int (Some (us_id r)) id) (users t).

(** What [bcrypt.hash(password, 10)] and [bcrypt.compare(password, hash)]
    settle to, for the values the handlers pass. *)
Record Bcrypt := {
  hash : Field -> Settled string;
  compare : Field -> option string -> Settled bool
}.

Inductive Json :=
| JError (error : string)
| JUserId (userId : Z)
| JLogin (user : Identity.t)
| JUser (user : Identity.t).

Record Response := {
  status : Z;
  json : Json
}.

Definition res_status_json (code : Z) (j : Json) : Response :=
  {| status := code; json := j |}.

Definition res_json (j : Json) : Response :=
  {| status := 200; json := j |}.

(** A request whose handler threw after its last [await] gets no answer:
    nothing catches the rejection of [bcrypt.compare] in the login
    callback. *)
Inductive Outcome :=
| Answered (r : Response)
| Unanswered.

Definition identity_of (user : UserRow) : Identity.t :=
  {| Identity.id := us_id user; Identity.email := us_email user;
     Identity.name := us_name user |}.

(** POST /api/register (lines 82-107) *)
Definition register (bc : Bcrypt) (now : Z) (body : Credentials.t) (t : Users)
  : Response * Users :=
  let email := Credentials.email body in
  let password := Credentials.password body in
  let name := Credentials.name body in
  if negb (truthy email) || negb (truthy password) || negb (truthy name)
  then (res_status_json 400 (JError "All fields are required"), t)
  else
    match hash bc password with
    | Rejected => (res_status_json 500 (JError "Server error"), t)
    | Fulfilled hashedPassword =>
        let (this, t') :=
          insert_user now (bind_text email) (Some hashedPassword) (bind_text name) t in
        match err this with
        | Some message =>
            if includes message "UNIQUE constraint failed"
            then (res_status_json 400 (JError "Email already exists"), t')
            else (res_status_json 500 (JError "Database error"), t')
        | None => (res_json (JUserId (lastID this)), t')
        end
    end.

(** POST /api/login (lines 109-139): the answer and [req.session.userId]
    after the request. *)
Definition login (bc : Bcrypt) (body : Credentials.t) (session : option Z)
           (t : Users) : Outcome * option Z :=
  let email := Credentials.email body in
  let password := Credentials.password body in
  if negb (truthy email) || negb (truthy password)
  then (Answered (res_status_json 400 (JError "Email and password are required")),
        session)
  else
    match get_by_email (bind_text email) t with
    | None => (Answered (res_status_json 401 (JError "Invalid credentials")), session)
    | Some user =>
        match compare bc password (us_password user) with
        | Rejected => (Unanswered, session)
        | Fulfilled false =>
            (Answered (res_status_json 401 (JError "Invalid credentials")), session)
        | Fulfilled true =>
            (Answered (res_json (JLogin (identity_of user))), Some (us_id user))
        end
    end.

(** [requireLogin] (lines 74-79) in front of a handler of this module. *)
Definition requireLogin (session : option Z) (next : Response) : Response :=
  if negb (truthy_num session)
  then res_status_json 401 (JError "Unauthorized")
  else next.

(** GET /api/user (lines 151-161) *)
Definition user (session : option Z) (t : Users) : Response :=
  requireLogin session
    (match get_by_id session t with
     | None => res_status_json 404 (JError "User not found")
     | Some row => res_json (JUser (identity_of row))
     end).

(** The emails of the table, and the invariant its constraints keep:
    emails are distinct, keys are distinct, positive and not above the
    counter. *)
Definition emails (t : Users) : list string :=
  flat_map (fun r => match us_email r with Some e => [e] | None => [] end) (users t).

Definition users_ok (t : Users) : Prop :=
  NoDup (emails t)
  /\ NoDup (map us_id (users t))
  /\ Forall (fun i => 1 <= i <= users_seq t) (map us_id (users t)).

(** Sample data. *)
Definition no_users : Users := {| users := []; users_seq := 0 |}.

Definition sample_bcrypt : Bcrypt :=
  {| hash := fun v =>
       match v with
       | Str s => Fulfilled ("$2b$10$" ++ s)%string
       | _ => Rejected
       end;
     compare := fun v h =>
       match v, h with
       | Str s, Some h' => Fulfilled (String.eqb ("$2b$10$" ++ s)%string h')
       | _, _ => Rejected
       end |}.

Definition ada (pw : string) : Credentials.t :=
  {| Credentials.email := Str "ada@example.org"; Credentials.password := Str pw;
     Credentials.name := Str "Ada" |}.

Definition ada_registered : Users :=
  snd (register sample_bcrypt 1 (ada "s3cret") no_users).

End Account.

Import Js Sql App.

(* ------------------------------------------------------------------ *)
(** ** Facts about the JavaScript primitives *)

Section JsFacts.

Lemma truthy_non_empty (v : Field) : truthy v = true <-> non_empty v.
Proof.
  split.
  - destruct v as [ | | s]; simpl; try discriminate.
    destruct s; simpl; try discriminate.
    intros _. eexists. split; [reflexivity | discriminate].
  - intros (s & -> & Hs). destruct s; [contradiction | reflexivity].
Qed.

Lemma truthy_missing_or_empty (v : Field) :
  truthy v = false <-> missing_or_empty v.
Proof.
  unfold missing_or_empty. split.
  - destruct v as [ | | s]; simpl; auto.
    destruct s; simpl; [auto | discriminate].
  - intros [-> | [-> | ->]]; reflexivity.
Qed.

Lemma truthy_num_logged_in (req : Request) (uid : Z) :
  logged_in req uid -> truthy_num (session_userId req) = true.
Proof.
  intros [-> Hne]. simpl. apply negb_true_iff, Z.eqb_neq, Hne.
Qed.

Context {A : Type}.

(** [Promise.all] fulfils exactly when every promise does, with the
    values in the order of the promises. *)
Lemma promise_all_fulfilled (ps : list (Settled A)) (vs : list A) :
  promise_all ps = Fulfilled vs <-> ps = map Fulfilled vs.
Proof.
  revert vs. induction ps as [ | p ps IH]; intros vs; simpl.
  - split.
    + intros [= <-]. reflexivity.
    + destruct vs; [reflexivity | discriminate].
  - destruct p as [v | ].
    + destruct (promise_all ps) as [vs' | ] eqn:E.
      * split.
        -- intros [= <-]. simpl. f_equal. apply IH. reflexivity.
        -- destruct vs as [ | v0 vs0]; [discriminate | ].
           simpl. intros [= -> Hps]. f_equal. f_equal.
           apply IH in Hps. congruence.
      * split; [discriminate | ].
        destruct vs as [ | v0 vs0]; [discriminate | ].
        simpl. intros [= -> Hps]. apply IH in Hps. discriminate.
    + split; [discriminate | ].
      destruct vs; discriminate.
Qed.

(** One rejected promise rejects the whole. *)
Lemma promise_all_rejected (ps : list (Settled A)) (i : nat) :
  nth_error ps i = Some Rejected -> promise_all ps = Rejected.
Proof.
  revert i. induction ps as [ | p ps IH]; intros i Hi.
  - destruct i; discriminate.
  - destruct i as [ | i]; simpl in Hi.
    + injection Hi as ->. reflexivity.
    + simpl. destruct p; [ | reflexivity].
      rewrite (IH i Hi). reflexivity.
Qed.

End JsFacts.

(* ------------------------------------------------------------------ *)
(** ** Facts about the database *)

Section SqlFacts.

Lemma fold_max_bound (ids : list Z) :
  Forall (fun i => i <= fold_right Z.max 0 ids) ids.
Proof.
  induction ids as [ | i ids IH]; simpl; constructor.
  - lia.
  - eapply Forall_impl; [ | exact IH]. simpl. intros; lia.
Qed.

(** The generated key is larger than every key in the table and than the
    counter. *)
Lemma autoincrement_fresh (seq : Z) (ids : list Z) :
  seq < autoincrement seq ids /\ Forall (fun i => i < autoincrement seq ids) ids.
Proof.
  unfold autoincrement. split; [lia | ].
  eapply Forall_impl; [ | apply fold_max_bound]. simpl. intros; lia.
Qed.

Context {A : Type}.
Variable f : A -> bool.

Lemma filter_nil_negb (l : list A) :
  filter f l = [] -> filter (fun x => negb (f x)) l = l.
Proof.
  induction l as [ | x l IH]; simpl; [reflexivity | ].
  destruct (f x); simpl; [discriminate | ].
  intros H. f_equal. apply IH, H.
Qed.

Lemma filter_negb_none (l : list A) :
  filter f (filter (fun x => negb (f x)) l) = [].
Proof.
  induction l as [ | x l IH]; simpl; [reflexivity | ].
  destruct (f x) eqn:E; simpl; [exact IH | ].
  rewrite E. exact IH.
Qed.

Lemma filter_split_length (l : list A) :
  (length (filter f l) + length (filter (fun x => negb (f x)) l) = length l)%nat.
Proof.
  induction l as [ | x l IH]; simpl; [reflexivity | ].
  destruct (f x); simpl; lia.
Qed.

Variable key : A -> Z.

Lemma insert_desc_perm (x : A) (l : list A) :
  Permutation (x :: l) (insert_desc key x l).
Proof.
  induction l as [ | y l IH]; simpl.
  - apply Permutation_refl.
  - destruct (key y <=? key x).
    + apply Permutation_refl.
    + eapply perm_trans; [apply perm_swap | ].
      apply perm_skip, IH.
Qed.

Lemma insert_desc_sorted (x : A) (l : list A) :
  StronglySorted (desc key) l -> StronglySorted (desc key) (insert_desc key x l).
Proof.
  induction l as [ | y l IH]; simpl; intros Hs.
  - constructor; constructor.
  - inversion Hs as [ | ? ? Hl Hy]; subst.
    destruct (key y <=? key x) eqn:E.
    + apply Z.leb_le in E. constructor; [exact Hs | ].
      constructor; [exact E | ].
      eapply Forall_impl; [ | exact Hy]. unfold desc. intros; lia.
    + apply Z.leb_gt in E. constructor; [apply IH, Hl | ].
      eapply Permutation_Forall; [apply insert_desc_perm | ].
      constructor; [unfold desc; lia | exact Hy].
Qed.

Lemma order_by_desc_perm (l : list A) :
  Permutation l (order_by_desc key l).
Proof.
  induction l as [ | x l IH]; simpl.
  - apply perm_nil.
  - eapply perm_trans; [apply perm_skip, IH | apply insert_desc_perm].
Qed.

Lemma order_by_desc_sorted (l : list A) :
  StronglySorted (desc key) (order_by_desc key l).
Proof.
  induction l as [ | x l IH]; simpl.
  - constructor.
  - apply insert_desc_sorted, IH.
Qed.

End SqlFacts.

(* ------------------------------------------------------------------ *)
(** ** How the primitives of the handlers run *)

Section Running.

Variable env : Env.

Lemma db_run_eq (sql : string) (stmt : Database -> RunResult * Database)
      (w : World) :
  db_run sql stmt w
  = (fst (stmt (db w)),
     {| db := snd (stmt (db w)); trace := trace w ++ [DbRun sql] |}).
Proof.
  unfold db_run, bind, emit. simpl. destruct (stmt (db w)); reflexivity.
Qed.

Lemma db_all_eq {A : Type} (sql : string) (query : Database -> list A)
      (w : World) :
  db_all sql query w = (query (db w), traced w [DbAll sql]).
Proof. reflexivity. Qed.

Lemma traced_traced (w : World) (evs evs' : list Event) :
  traced (traced w evs) evs' = traced w (evs ++ evs').
Proof. unfold traced. simpl. rewrite app_assoc. reflexivity. Qed.

(** The fan-out issues one request per liked id, in order, whatever the
    outcomes are, and touches nothing else. *)
Lemma fan_out_eq (likes : list (option string)) (n : nat) (w : World) :
  fan_out env n likes w
  = (outcomes env n likes,
     traced w (map (fun videoId => AxiosGet (streams_url videoId)) likes)).
Proof.
  revert n w. induction likes as [ | videoId rest IH]; intros n w; simpl.
  - unfold ret, traced. rewrite app_nil_r. destruct w; reflexivity.
  - unfold bind at 1. unfold axios_get, bind at 1, emit, ret. simpl.
    unfold bind. rewrite IH. unfold traced. simpl.
    rewrite <- app_assoc. reflexivity.
Qed.

Lemma outcomes_length (likes : list (option string)) (n : nat) :
  length (outcomes env n likes) = length likes.
Proof.
  revert n. induction likes as [ | v rest IH]; intros n; simpl; [reflexivity | ].
  rewrite IH. reflexivity.
Qed.

Lemma outcomes_nth (likes : list (option string)) (n i : nat)
      (videoId : option string) :
  nth_error likes i = Some videoId ->
  nth_error (outcomes env n likes) i
  = Some (details videoId (upstream env (n + i) (streams_url videoId))).
Proof.
  revert n i. induction likes as [ | v rest IH]; intros n i Hi.
  - destruct i; discriminate.
  - destruct i as [ | i]; simpl in *.
    + injection Hi as ->. rewrite Nat.add_0_r. reflexivity.
    + rewrite (IH (S n) i Hi). rewrite Nat.add_succ_r. reflexivity.
Qed.

Lemma requireLogin_next (req : Request) (uid : Z) (next : IO Response) :
  logged_in req uid -> requireLogin req next = next.
Proof.
  intros H. unfold requireLogin.
  rewrite (truthy_num_logged_in req uid H). reflexivity.
Qed.

Lemma requireLogin_rejects (req : Request) (next : IO Response) (w : World) :
  truthy_num (session_userId req) = false ->
  requireLogin req next w = (res_status_json 401 (JError "Unauthorized"), w).
Proof. intros H. unfold requireLogin. rewrite H. reflexivity. Qed.

End Running.

(* ------------------------------------------------------------------ *)
(** ** How each handler runs *)

Section Handlers.

Variables (env : Env) (req : Request) (w : World).

Lemma save_video_rejects :
  truthy (Body.videoId (body req)) && truthy (Body.title (body req))
  && truthy (Body.thumbnail (body req)) && truthy (Body.channel (body req)) = false ->
  save_video env req w
  = (res_status_json 400 (JError "All video fields are required"), w).
Proof.
  intros H. unfold save_video.
  destruct (truthy (Body.videoId (body req))),
           (truthy (Body.title (body req))),
           (truthy (Body.thumbnail (body req))),
           (truthy (Body.channel (body req))); try discriminate; reflexivity.
Qed.

Lemma save_video_inserts :
  truthy (Body.videoId (body req)) = true ->
  truthy (Body.title (body req)) = true ->
  truthy (Body.thumbnail (body req)) = true ->
  truthy (Body.channel (body req)) = true ->
  save_video env req w
  = (res_json (JSavedId (autoincrement (saved_seq (db w))
                                       (map sv_id (saved_videos (db w))))),
     {| db := snd (insert_saved (now env) (session_userId req)
                     (bind_text (Body.videoId (body req)))
                     (bind_text (Body.title (body req)))
                     (bind_text (Body.thumbnail (body req)))
                     (bind_text (Body.channel (body req))) (db w));
        trace := trace w ++ [DbRun SQL_INSERT_SAVED] |}).
Proof.
  intros H1 H2 H3 H4. unfold save_video.
  rewrite H1, H2, H3, H4. cbn [negb orb].
  unfold bind. rewrite db_run_eq. reflexivity.
Qed.

Lemma like_video_rejects :
  truthy (Body.videoId (body req)) = false ->
  like_video env req w
  = (res_status_json 400 (JError "Video ID is required"), w).
Proof.
  intros H. unfold like_video, like_video_on. rewrite H. reflexivity.
Qed.

(** On the table of the source the insert never reports a conflict. *)
Lemma like_video_inserts :
  truthy (Body.videoId (body req)) = true ->
  like_video env req w
  = (res_json (JLikeId (autoincrement (liked_seq (db w))
                                      (map lk_id (liked_videos (db w))))),
     {| db := snd (insert_liked liked_videos_unique (now env) (session_userId req)
                     (bind_text (Body.videoId (body req))) (db w));
        trace := trace w ++ [DbRun SQL_INSERT_LIKED] |}).
Proof.
  intros H. unfold like_video, like_video_on. rewrite H. cbn [negb].
  unfold bind. rewrite db_run_eq. reflexivity.
Qed.

Lemma unlike_video_runs :
  unlike_video env req w
  = (if Z.of_nat (length (filter (liked_matches (session_userId req)
                                    (Some (params_videoId req)))
                                 (liked_videos (db w)))) =? 0
     then res_status_json 404 (JError "Like not found")
     else res_json JSuccess,
     {| db := snd (delete_liked (session_userId req) (Some (params_videoId req)) (db w));
        trace := trace w ++ [DbRun SQL_DELETE_LIKED] |}).
Proof.
  unfold unlike_video, bind. rewrite db_run_eq. simpl.
  destruct (Z.of_nat _ =? 0); reflexivity.
Qed.

Lemma unsave_video_runs :
  unsave_video env req w
  = (if Z.of_nat (length (filter (saved_matches (session_userId req)
                                    (Some (params_videoId req)))
                                 (saved_videos (db w)))) =? 0
     then res_status_json 404 (JError "Saved video not found")
     else res_json JSuccess,
     {| db := snd (delete_saved (session_userId req) (Some (params_videoId req)) (db w));
        trace := trace w ++ [DbRun SQL_DELETE_SAVED] |}).
Proof.
  unfold unsave_video, bind. rewrite db_run_eq. simpl.
  destruct (Z.of_nat _ =? 0); reflexivity.
Qed.

Lemma liked_videos_list_runs :
  liked_videos_list env req w
  = (match promise_all (outcomes env 0 (listLikedIds (session_userId req) (db w))) with
     | Fulfilled videoDetails => res_json (JVideoDetails videoDetails)
     | Rejected => res_status_json 500 (JError "Failed to fetch video details")
     end,
     traced w (DbAll SQL_SELECT_LIKED
               :: map (fun videoId => AxiosGet (streams_url videoId))
                      (listLikedIds (session_userId req) (db w)))).
Proof.
  unfold liked_videos_list, bind. rewrite db_all_eq, fan_out_eq.
  rewrite traced_traced. simpl.
  destruct (promise_all _); reflexivity.
Qed.

End Handlers.

(* ------------------------------------------------------------------ *)
(** ** The gate *)

(** C9: a request to any of the six gated routes that carries no session
    is answered 401 Unauthorized and leaves the world as it was: the
    database is not written, and the trace gains no [DbRun], no [DbAll]
    and no [AxiosGet], so nothing was read from the store or asked of the
    upstream service. *)
Theorem unauthenticated_request_is_rejected
        (r : Route) (env : Env) (req : Request) (w : World) :
  session_userId req = None ->
  serve r env req w = (res_status_json 401 (JError "Unauthorized"), w).
Proof.
  intros H. unfold serve. apply requireLogin_rejects.
  rewrite H. reflexivity.
Qed.

Lemma unauthenticated_request_is_rejected_witness :
  session_userId (Sample.anonymous "A") = None
  /\ serve GetLikedVideos (Sample.at_time 4) (Sample.anonymous "A") Sample.liked_ABC
     = (res_status_json 401 (JError "Unauthorized"), Sample.liked_ABC).
Proof.
  split; [reflexivity | ].
  apply (unauthenticated_request_is_rejected GetLikedVideos); reflexivity.
Defined.

(* ------------------------------------------------------------------ *)
(** ** Saving *)

Section Saving.

Variables (env : Env) (req : Request) (w : World) (uid : Z).
Hypothesis session : logged_in req uid.

Lemma serve_save_video_rejects :
  missing_or_empty (Body.videoId (body req)) \/ missing_or_empty (Body.title (body req))
  \/ missing_or_empty (Body.thumbnail (body req)) \/ missing_or_empty (Body.channel (body req)) ->
  serve PostSaveVideo env req w
  = (res_status_json 400 (JError "All video fields are required"), w).
Proof.
  intros H. unfold serve. rewrite (requireLogin_next req uid _ session).
  apply save_video_rejects.
  destruct H as [H | [H | [H | H]]];
    apply truthy_missing_or_empty in H; rewrite H;
    rewrite ?andb_false_r; reflexivity.
Qed.

(** The row a save appends: its key is new, its owner is the session's
    user, its other columns are the fields of the body. *)
Lemma serve_save_video_inserts :
  non_empty (Body.videoId (body req)) -> non_empty (Body.title (body req)) ->
  non_empty (Body.thumbnail (body req)) -> non_empty (Body.channel (body req)) ->
  exists row,
    fst (serve PostSaveVideo env req w) = res_json (JSavedId (sv_id row))
    /\ saved_videos (db (snd (serve PostSaveVideo env req w)))
       = saved_videos (db w) ++ [row]
    /\ liked_videos (db (snd (serve PostSaveVideo env req w)))
       = liked_videos (db w)
    /\ saved_seq (db (snd (serve PostSaveVideo env req w))) = sv_id row
    /\ saved_seq (db w) < sv_id row
    /\ Forall (fun r => sv_id r < sv_id row) (saved_videos (db w))
    /\ sv_user_id row = Some uid
    /\ sv_video_id row = bind_text (Body.videoId (body req))
    /\ sv_title row = bind_text (Body.title (body req))
    /\ sv_thumbnail row = bind_text (Body.thumbnail (body req))
    /\ sv_channel row = bind_text (Body.channel (body req)).
Proof.
  intros H1 H2 H3 H4.
  apply truthy_non_empty in H1, H2, H3, H4.
  unfold serve. rewrite (requireLogin_next req uid _ session).
  cbn [handler]. rewrite (save_video_inserts env req w H1 H2 H3 H4).
  exists {| sv_id := autoincrement (saved_seq (db w)) (map sv_id (saved_videos (db w)));
            sv_user_id := session_userId req;
            sv_video_id := bind_text (Body.videoId (body req));
            sv_title := bind_text (Body.title (body req));
            sv_thumbnail := bind_text (Body.thumbnail (body req));
            sv_channel := bind_text (Body.channel (body req));
            sv_saved_at := now env |}.
  cbn [fst snd db insert_saved saved_videos liked_videos saved_seq].
  split; [reflexivity | ]. split; [reflexivity | ].
  split; [reflexivity | ]. cbn [sv_id sv_user_id sv_video_id sv_title sv_thumbnail sv_channel].
  destruct (autoincrement_fresh (saved_seq (db w)) (map sv_id (saved_videos (db w))))
    as [Hseq Hids].
  split; [reflexivity | ]. split; [exact Hseq | ].
  split; [ | destruct session as [-> _]; repeat split; reflexivity].
  rewrite Forall_map in Hids. exact Hids.
Qed.

End Saving.

Lemma saved_matches_own (r : SavedRow) (uid : Z) (s : string) :
  sv_user_id r = Some uid -> sv_video_id r = Some s ->
  saved_matches (Some uid) (Some s) r = true.
Proof.
  intros Hu Hv. unfold saved_matches. rewrite Hu, Hv. simpl.
  rewrite Z.eqb_refl, String.eqb_refl. reflexivity.
Qed.

(** C6: a save-video request with a missing or empty field among videoId,
    title, thumbnail and channel is answered 400 and leaves the world as it
    was (no row inserted, no call to the store); with four non-empty fields
    it appends one row, whose key is larger than every key in the table, and
    answers with that key. *)
Theorem save_video_validates_then_inserts
        (env : Env) (req : Request) (w : World) (uid : Z) :
  logged_in req uid ->
  (missing_or_empty (Body.videoId (body req))
   \/ missing_or_empty (Body.title (body req))
   \/ missing_or_empty (Body.thumbnail (body req))
   \/ missing_or_empty (Body.channel (body req)) ->
   serve PostSaveVideo env req w
   = (res_status_json 400 (JError "All video fields are required"), w))
  /\ (non_empty (Body.videoId (body req)) /\ non_empty (Body.title (body req))
      /\ non_empty (Body.thumbnail (body req)) /\ non_empty (Body.channel (body req)) ->
      exists row,
        fst (serve PostSaveVideo env req w) = res_json (JSavedId (sv_id row))
        /\ saved_videos (db (snd (serve PostSaveVideo env req w)))
           = saved_videos (db w) ++ [row]
        /\ Forall (fun r => sv_id r < sv_id row) (saved_videos (db w))
        /\ sv_user_id row = Some uid
        /\ option_map Str (sv_video_id row) = Some (Body.videoId (body req))
        /\ option_map Str (sv_title row) = Some (Body.title (body req))
        /\ option_map Str (sv_thumbnail row) = Some (Body.thumbnail (body req))
        /\ option_map Str (sv_channel row) = Some (Body.channel (body req))).
Proof.
  intros session. split.
  - apply (serve_save_video_rejects env req w uid session).
  - intros (H1 & H2 & H3 & H4).
    destruct (serve_save_video_inserts env req w uid session H1 H2 H3 H4)
      as (row & Hres & Hrows & _ & _ & _ & Hfresh & Hu & Hv & Ht & Hth & Hc).
    exists row. rewrite Hv, Ht, Hth, Hc.
    destruct H1 as (s1 & -> & _), H2 as (s2 & -> & _),
             H3 as (s3 & -> & _), H4 as (s4 & -> & _).
    repeat split; assumption || reflexivity.
Qed.

Lemma save_video_validates_then_inserts_witness :
  logged_in (Sample.alice "") 1
  /\ serve PostSaveVideo (Sample.at_time 1) (Sample.alice "") Sample.fresh
     = (res_status_json 400 (JError "All video fields are required"), Sample.fresh)
  /\ exists row,
       fst (serve PostSaveVideo (Sample.at_time 1) (Sample.alice "A") Sample.fresh)
       = res_json (JSavedId (sv_id row))
       /\ saved_videos (db (snd (serve PostSaveVideo (Sample.at_time 1)
                                       (Sample.alice "A") Sample.fresh)))
          = [row].
Proof.
  assert (Hs : forall v, logged_in (Sample.alice v) 1)
    by (intros v; split; [reflexivity | discriminate]).
  split; [apply Hs | ]. split.
  - apply (save_video_validates_then_inserts
             (Sample.at_time 1) (Sample.alice "") Sample.fresh 1 (Hs _)).
    left. right. right. reflexivity.
  - destruct (save_video_validates_then_inserts
                (Sample.at_time 1) (Sample.alice "A") Sample.fresh 1 (Hs _))
      as [_ H].
    destruct H as (row & Hres & Hrows & _).
    + repeat split; eexists; (split; [reflexivity | discriminate]).
    + exists row. split; assumption.
Defined.

(** C5: saving the same video twice for the same user succeeds both times
    and appends two rows; the second key is larger than the first, which is
    larger than every key already in the table, so the rows are distinct
    and nothing was deduplicated: the user's count for the video grows by
    two. *)
Theorem save_video_twice_makes_two_rows
        (env1 env2 : Env) (req : Request) (w : World) (uid : Z) (videoId : string) :
  logged_in req uid ->
  Body.videoId (body req) = Str videoId -> videoId <> ""%string ->
  non_empty (Body.title (body req)) ->
  non_empty (Body.thumbnail (body req)) ->
  non_empty (Body.channel (body req)) ->
  let w1 := snd (serve PostSaveVideo env1 req w) in
  let w2 := snd (serve PostSaveVideo env2 req w1) in
  exists row1 row2,
    fst (serve PostSaveVideo env1 req w) = res_json (JSavedId (sv_id row1))
    /\ fst (serve PostSaveVideo env2 req w1) = res_json (JSavedId (sv_id row2))
    /\ saved_videos (db w2) = saved_videos (db w) ++ [row1; row2]
    /\ Forall (fun r => sv_id r < sv_id row1) (saved_videos (db w))
    /\ sv_id row1 < sv_id row2
    /\ row1 <> row2
    /\ sv_user_id row1 = Some uid /\ sv_video_id row1 = Some videoId
    /\ sv_user_id row2 = Some uid /\ sv_video_id row2 = Some videoId
    /\ saved_count uid videoId (db w2) = S (S (saved_count uid videoId (db w))).
Proof.
  intros session Hv Hne Ht Hth Hc w1 w2.
  assert (Hvid : non_empty (Body.videoId (body req)))
    by (exists videoId; split; assumption).
  destruct (serve_save_video_inserts env1 req w uid session Hvid Ht Hth Hc)
    as (row1 & Hres1 & Hrows1 & _ & Hseq1 & _ & Hfresh1 & Hu1 & Hv1 & _).
  destruct (serve_save_video_inserts env2 req w1 uid session Hvid Ht Hth Hc)
    as (row2 & Hres2 & Hrows2 & _ & _ & Hlt & _ & Hu2 & Hv2 & _).
  fold w1 in Hrows1, Hseq1. fold w2 in Hrows2.
  rewrite Hseq1 in Hlt. rewrite Hv in Hv1, Hv2. simpl in Hv1, Hv2.
  exists row1, row2.
  assert (Hall : saved_videos (db w2) = saved_videos (db w) ++ [row1; row2]).
  { rewrite Hrows2, Hrows1, <- app_assoc. reflexivity. }
  repeat split; try assumption.
  - intros ->. lia.
  - unfold saved_count. rewrite Hall, filter_app, length_app. simpl.
    rewrite (saved_matches_own row1 uid videoId Hu1 Hv1).
    rewrite (saved_matches_own row2 uid videoId Hu2 Hv2).
    simpl. lia.
Qed.

Lemma save_video_twice_makes_two_rows_witness :
  logged_in (Sample.alice "A") 1
  /\ saved_count 1 "A" (db Sample.saved_AA) = 2%nat.
Proof.
  assert (Hs : logged_in (Sample.alice "A") 1)
    by (split; [reflexivity | discriminate]).
  split; [exact Hs | ].
  destruct (save_video_twice_makes_two_rows
              (Sample.at_time 1) (Sample.at_time 2) (Sample.alice "A")
              Sample.fresh 1 "A" Hs eq_refl)
    as (row1 & row2 & H); [discriminate | | | | ].
  1-3: eexists; (split; [reflexivity | discriminate]).
  destruct H as (_ & _ & _ & _ & _ & _ & _ & _ & _ & _ & H).
  exact H.
Defined.

(* ------------------------------------------------------------------ *)
(** ** Liking *)

Lemma liked_matches_own (r : LikedRow) (uid : Z) (s : string) :
  lk_user_id r = Some uid -> lk_video_id r = Some s ->
  liked_matches (Some uid) (Some s) r = true.
Proof.
  intros Hu Hv. unfold liked_matches. rewrite Hu, Hv. simpl.
  rewrite Z.eqb_refl, String.eqb_refl. reflexivity.
Qed.

Section Liking.

Variables (env : Env) (req : Request) (w : World) (uid : Z) (videoId : string).
Hypothesis session : logged_in req uid.

Lemma serve_like_video_rejects :
  missing_or_empty (Body.videoId (body req)) ->
  serve PostLikeVideo env req w
  = (res_status_json 400 (JError "Video ID is required"), w).
Proof.
  intros H. unfold serve. rewrite (requireLogin_next req uid _ session).
  apply like_video_rejects, truthy_missing_or_empty, H.
Qed.

(** On the table the source creates, a like always appends a row,
    whether or not the user already has one for the video. *)
Lemma serve_like_video_inserts :
  Body.videoId (body req) = Str videoId -> videoId <> ""%string ->
  exists row,
    fst (serve PostLikeVideo env req w) = res_json (JLikeId (lk_id row))
    /\ liked_videos (db (snd (serve PostLikeVideo env req w)))
       = liked_videos (db w) ++ [row]
    /\ Forall (fun r => lk_id r < lk_id row) (liked_videos (db w))
    /\ lk_user_id row = Some uid
    /\ lk_video_id row = Some videoId
    /\ liked_count uid videoId (db (snd (serve PostLikeVideo env req w)))
       = S (liked_count uid videoId (db w)).
Proof.
  intros Hv Hne.
  assert (Ht : truthy (Body.videoId (body req)) = true).
  { apply truthy_non_empty. exists videoId. split; assumption. }
  unfold serve. rewrite (requireLogin_next req uid _ session).
  cbn [handler]. rewrite (like_video_inserts env req w Ht).
  exists {| lk_id := autoincrement (liked_seq (db w)) (map lk_id (liked_videos (db w)));
            lk_user_id := session_userId req;
            lk_video_id := bind_text (Body.videoId (body req));
            lk_liked_at := now env |}.
  unfold insert_liked, liked_videos_unique, liked_conflict.
  cbn [existsb fst snd db liked_videos lk_id lk_user_id lk_video_id].
  destruct (autoincrement_fresh (liked_seq (db w)) (map lk_id (liked_videos (db w))))
    as [_ Hids].
  rewrite Forall_map in Hids. rewrite Hv. destruct session as [Hu _].
  rewrite Hu. cbn [bind_text].
  repeat split; try assumption.
  unfold liked_count. cbn [liked_videos].
  rewrite filter_app, length_app. cbn [filter].
  rewrite liked_matches_own by reflexivity. simpl. lia.
Qed.

(** Had the table a UNIQUE constraint on (user_id, video_id), the branch
    of lines 243-245 would answer a like of an already liked video with
    400 and insert nothing. *)
Lemma like_video_on_unique_rejects_duplicate :
  Body.videoId (body req) = Str videoId -> videoId <> ""%string ->
  (1 <= liked_count uid videoId (db w))%nat ->
  requireLogin req (like_video_on [[ColUserId; ColVideoId]] env req) w
  = (res_status_json 400 (JError "Video already liked"),
     traced w [DbRun SQL_INSERT_LIKED]).
Proof.
  intros Hv Hne Hcount.
  rewrite (requireLogin_next req uid _ session).
  unfold like_video_on. rewrite Hv.
  destruct videoId as [ | c s] eqn:E; [contradiction | ].
  cbn [truthy string_nonempty negb]. unfold bind. rewrite db_run_eq.
  unfold insert_liked, liked_conflict. cbn [existsb forallb liked_agree].
  destruct session as [Hu _]. rewrite Hu.
  cbn [lk_user_id lk_video_id bind_text].
  assert (Hex : existsb (fun r' => eq_int (lk_user_id r') (Some uid)
                                   && (eq_text (lk_video_id r') (Some (String c s)) && true))
                        (liked_videos (db w)) = true).
  { unfold liked_count in Hcount.
    destruct (filter _ _) as [ | r rs] eqn:F; [simpl in Hcount; lia | ].
    assert (Hin : In r (filter (liked_matches (Some uid) (Some (String c s)))
                               (liked_videos (db w))))
      by (rewrite F; left; reflexivity).
    apply filter_In in Hin. destruct Hin as [Hin Hm].
    apply existsb_exists. exists r. split; [exact Hin | ].
    unfold liked_matches in Hm. rewrite andb_true_r. exact Hm. }
  rewrite Hex. reflexivity.
Qed.

End Liking.

(** C1: the claim is that a second like of the same video by the same user
    is refused with 400 'Video already liked' and leaves one entry.  The
    code run here on the table it creates: user 1 likes video A twice; the
    second request is answered 200 with a new likeId and the store holds
    two entries for the pair. *)
Example like_video_twice_inserts_second_row :
  let first := serve PostLikeVideo (Sample.at_time 1) (Sample.alice "A") Sample.fresh in
  let second := serve PostLikeVideo (Sample.at_time 2) (Sample.alice "A") (snd first) in
  fst first = res_json (JLikeId 1)
  /\ fst second = res_json (JLikeId 2)
  /\ liked_count 1 "A" (db (snd second)) = 2%nat.
Proof. vm_compute. repeat split. Qed.

(** C10: a like-video request whose videoId is the empty string is answered
    400 'Video ID is required' without any call to the store, and its
    outcome is the outcome of the same request with the field absent. *)
Theorem like_video_empty_id_as_missing
        (env : Env) (req : Request) (w : World) (uid : Z) :
  logged_in req uid ->
  Body.videoId (body req) = Str "" ->
  serve PostLikeVideo env req w
  = (res_status_json 400 (JError "Video ID is required"), w)
  /\ serve PostLikeVideo env req w
     = serve PostLikeVideo env (with_videoId req Undefined) w.
Proof.
  intros session Hv.
  assert (H : serve PostLikeVideo env req w
              = (res_status_json 400 (JError "Video ID is required"), w)).
  { apply (serve_like_video_rejects env req w uid session).
    right. right. exact Hv. }
  split; [exact H | ]. rewrite H. symmetry.
  apply (serve_like_video_rejects env (with_videoId req Undefined) w uid).
  - exact session.
  - left. reflexivity.
Qed.

Lemma like_video_empty_id_as_missing_witness :
  logged_in (Sample.alice "") 1
  /\ Body.videoId (body (Sample.alice "")) = Str ""
  /\ serve PostLikeVideo (Sample.at_time 4) (Sample.alice "") Sample.liked_ABC
     = serve PostLikeVideo (Sample.at_time 4)
         (with_videoId (Sample.alice "") Undefined) Sample.liked_ABC.
Proof.
  assert (Hs : logged_in (Sample.alice "") 1)
    by (split; [reflexivity | discriminate]).
  split; [exact Hs | ]. split; [reflexivity | ].
  apply (like_video_empty_id_as_missing
           (Sample.at_time 4) (Sample.alice "") Sample.liked_ABC 1 Hs eq_refl).
Defined.

(* ------------------------------------------------------------------ *)
(** ** Unliking and unsaving *)

Section Deleting.

Variables (env : Env) (req : Request) (w : World) (uid : Z).
Hypothesis session : logged_in req uid.

Lemma serve_unlike_video_absent :
  liked_count uid (params_videoId req) (db w) = 0%nat ->
  serve DeleteUnlikeVideo env req w
  = (res_status_json 404 (JError "Like not found"),
     traced w [DbRun SQL_DELETE_LIKED]).
Proof.
  intros Hcount. unfold serve. rewrite (requireLogin_next req uid _ session).
  cbn [handler]. rewrite unlike_video_runs.
  destruct session as [Hu _]. rewrite Hu.
  unfold liked_count in Hcount. rewrite Hcount.
  cbn [Z.of_nat Z.eqb]. unfold traced, delete_liked. cbn [snd]. f_equal. f_equal.
  apply length_zero_iff_nil in Hcount.
  rewrite (filter_nil_negb _ _ Hcount). destruct (db w); reflexivity.
Qed.

Lemma serve_unlike_video_present :
  (1 <= liked_count uid (params_videoId req) (db w))%nat ->
  fst (serve DeleteUnlikeVideo env req w) = res_json JSuccess
  /\ liked_count uid (params_videoId req) (db (snd (serve DeleteUnlikeVideo env req w))) = 0%nat.
Proof.
  intros Hcount. unfold serve. rewrite (requireLogin_next req uid _ session).
  cbn [handler]. rewrite unlike_video_runs.
  destruct session as [Hu _]. rewrite Hu.
  unfold liked_count in *. cbn [fst snd db delete_liked liked_videos]. split.
  - destruct (Z.of_nat _ =? 0) eqn:E; [ | reflexivity].
    apply Z.eqb_eq in E. lia.
  - rewrite filter_negb_none. reflexivity.
Qed.

Lemma serve_unsave_video_absent :
  saved_count uid (params_videoId req) (db w) = 0%nat ->
  serve DeleteUnsaveVideo env req w
  = (res_status_json 404 (JError "Saved video not found"),
     traced w [DbRun SQL_DELETE_SAVED]).
Proof.
  intros Hcount. unfold serve. rewrite (requireLogin_next req uid _ session).
  cbn [handler]. rewrite unsave_video_runs.
  destruct session as [Hu _]. rewrite Hu.
  unfold saved_count in Hcount. rewrite Hcount.
  cbn [Z.of_nat Z.eqb]. unfold traced, delete_saved. cbn [snd]. f_equal. f_equal.
  apply length_zero_iff_nil in Hcount.
  rewrite (filter_nil_negb _ _ Hcount). destruct (db w); reflexivity.
Qed.

Lemma serve_unsave_video_present :
  (1 <= saved_count uid (params_videoId req) (db w))%nat ->
  fst (serve DeleteUnsaveVideo env req w) = res_json JSuccess
  /\ saved_videos (db (snd (serve DeleteUnsaveVideo env req w)))
     = filter (fun r => negb (saved_matches (Some uid) (Some (params_videoId req)) r))
              (saved_videos (db w))
  /\ liked_videos (db (snd (serve DeleteUnsaveVideo env req w)))
     = liked_videos (db w).
Proof.
  intros Hcount. unfold serve. rewrite (requireLogin_next req uid _ session).
  cbn [handler]. rewrite unsave_video_runs.
  destruct session as [Hu _]. rewrite Hu.
  unfold saved_count in *.
  cbn [fst snd db delete_saved saved_videos liked_videos]. split.
  - destruct (Z.of_nat _ =? 0) eqn:E; [ | reflexivity].
    apply Z.eqb_eq in E. lia.
  - split; reflexivity.
Qed.

End Deleting.

(** C7: unliking a video the user has no entry for is answered 404 'Like
    not found' and leaves the database as it was; unliking right after a
    like of that video by the same user is answered with success and leaves
    no entry of the pair in the liked store. *)
Theorem unlike_video_not_found_or_removed
        (env env' : Env) (req : Request) (w : World) (uid : Z) :
  logged_in req uid ->
  let videoId := params_videoId req in
  (liked_count uid videoId (db w) = 0%nat ->
   fst (serve DeleteUnlikeVideo env req w)
   = res_status_json 404 (JError "Like not found")
   /\ db (snd (serve DeleteUnlikeVideo env req w)) = db w)
  /\ (Body.videoId (body req) = Str videoId -> videoId <> ""%string ->
      let liked := serve PostLikeVideo env req w in
      let unliked := serve DeleteUnlikeVideo env' req (snd liked) in
      (exists likeId, fst liked = res_json (JLikeId likeId))
      /\ fst unliked = res_json JSuccess
      /\ liked_count uid videoId (db (snd unliked)) = 0%nat).
Proof.
  intros session videoId. split.
  - intros Hcount.
    rewrite (serve_unlike_video_absent env req w uid session Hcount).
    split; reflexivity.
  - intros Hv Hne liked unliked.
    destruct (serve_like_video_inserts env req w uid videoId session Hv Hne)
      as (row & Hres & _ & _ & _ & _ & Hcount).
    fold liked in Hres, Hcount. split; [exists (lk_id row); exact Hres | ].
    apply (serve_unlike_video_present env' req (snd liked) uid session).
    fold videoId. rewrite Hcount. lia.
Qed.

Lemma unlike_video_not_found_or_removed_witness :
  logged_in (Sample.alice "D") 1
  /\ liked_count 1 "D" (db Sample.liked_ABC) = 0%nat
  /\ fst (serve DeleteUnlikeVideo (Sample.at_time 4) (Sample.alice "D") Sample.liked_ABC)
     = res_status_json 404 (JError "Like not found")
  /\ fst (serve DeleteUnlikeVideo (Sample.at_time 5) (Sample.alice "D")
            (snd (serve PostLikeVideo (Sample.at_time 4) (Sample.alice "D")
                    Sample.liked_ABC)))
     = res_json JSuccess.
Proof.
  assert (Hs : logged_in (Sample.alice "D") 1)
    by (split; [reflexivity | discriminate]).
  destruct (unlike_video_not_found_or_removed
              (Sample.at_time 4) (Sample.at_time 5) (Sample.alice "D")
              Sample.liked_ABC 1 Hs) as [Habsent Hpresent].
  split; [exact Hs | ]. split; [reflexivity | ]. split.
  - apply Habsent. reflexivity.
  - apply Hpresent; [reflexivity | discriminate].
Defined.

(** C4: when the user has N >= 1 saved entries of the video, one
    unsave-video request is answered with success and deletes all N: the
    table keeps exactly the rows that do not match, in their order, so no
    entry of the pair is left and the table is N rows shorter; when the
    user has none, the request is answered 404 'Saved video not found' and
    the database is as it was. *)
Theorem unsave_video_removes_all_or_not_found
        (env : Env) (req : Request) (w : World) (uid : Z) :
  logged_in req uid ->
  let videoId := params_videoId req in
  let n := saved_count uid videoId (db w) in
  let w' := snd (serve DeleteUnsaveVideo env req w) in
  ((1 <= n)%nat ->
   fst (serve DeleteUnsaveVideo env req w) = res_json JSuccess
   /\ saved_videos (db w')
      = filter (fun r => negb (saved_matches (Some uid) (Some videoId) r))
               (saved_videos (db w))
   /\ saved_count uid videoId (db w') = 0%nat
   /\ (length (saved_videos (db w')) + n = length (saved_videos (db w)))%nat
   /\ liked_videos (db w') = liked_videos (db w))
  /\ (n = 0%nat ->
      fst (serve DeleteUnsaveVideo env req w)
      = res_status_json 404 (JError "Saved video not found")
      /\ db w' = db w).
Proof.
  intros session videoId n w'. split.
  - intros Hn.
    destruct (serve_unsave_video_present env req w uid session Hn)
      as (Hres & Hrows & Hliked).
    fold w' in Hrows, Hliked. fold videoId in Hrows.
    repeat split; try assumption.
    + unfold saved_count. rewrite Hrows. rewrite filter_negb_none. reflexivity.
    + rewrite Hrows. unfold n, saved_count.
      pose proof (filter_split_length (saved_matches (Some uid) (Some videoId))
                                      (saved_videos (db w))).
      lia.
  - intros Hn. unfold w'.
    rewrite (serve_unsave_video_absent env req w uid session Hn).
    split; reflexivity.
Qed.

Lemma unsave_video_removes_all_or_not_found_witness :
  logged_in (Sample.alice "A") 1
  /\ saved_count 1 "A" (db Sample.saved_AA) = 2%nat
  /\ fst (serve DeleteUnsaveVideo (Sample.at_time 3) (Sample.alice "A") Sample.saved_AA)
     = res_json JSuccess
  /\ saved_count 1 "A"
       (db (snd (serve DeleteUnsaveVideo (Sample.at_time 3) (Sample.alice "A")
                   Sample.saved_AA))) = 0%nat
  /\ fst (serve DeleteUnsaveVideo (Sample.at_time 3) (Sample.alice "A") Sample.fresh)
     = res_status_json 404 (JError "Saved video not found").
Proof.
  assert (Hs : logged_in (Sample.alice "A") 1)
    by (split; [reflexivity | discriminate]).
  split; [exact Hs | ]. split; [reflexivity | ].
  destruct (unsave_video_removes_all_or_not_found
              (Sample.at_time 3) (Sample.alice "A") Sample.saved_AA 1 Hs)
    as [Hpresent _].
  destruct Hpresent as (Hres & _ & Hcount & _).
  { vm_compute. lia. }
  destruct (unsave_video_removes_all_or_not_found
              (Sample.at_time 3) (Sample.alice "A") Sample.fresh 1 Hs)
    as [_ Habsent].
  destruct Habsent as [H404 _]; [reflexivity | ].
  repeat split; assumption.
Defined.

(* ------------------------------------------------------------------ *)
(** ** The liked-videos aggregation *)

Section Aggregation.

Variables (env : Env) (req : Request) (w : World) (uid : Z).
Hypothesis session : logged_in req uid.

Lemma serve_liked_videos_runs :
  serve GetLikedVideos env req w
  = (match promise_all (outcomes env 0 (listLikedIds (Some uid) (db w))) with
     | Fulfilled videoDetails => res_json (JVideoDetails videoDetails)
     | Rejected => res_status_json 500 (JError "Failed to fetch video details")
     end,
     traced w (DbAll SQL_SELECT_LIKED
               :: map (fun videoId => AxiosGet (streams_url videoId))
                      (listLikedIds (Some uid) (db w)))).
Proof.
  unfold serve. rewrite (requireLogin_next req uid _ session).
  cbn [handler]. rewrite liked_videos_list_runs.
  destruct session as [-> _]. reflexivity.
Qed.

(** The query returns the user's rows, most recently liked first. *)
Lemma listLikedIds_sorted :
  exists rows,
    listLikedIds (Some uid) (db w) = map lk_video_id rows
    /\ StronglySorted (desc lk_liked_at) rows
    /\ Permutation (likes_of uid (db w)) rows.
Proof.
  exists (select_liked (Some uid) (db w)). split; [reflexivity | ].
  unfold select_liked. split.
  - apply order_by_desc_sorted.
  - apply order_by_desc_perm.
Qed.

(** When every request of the fan-out fulfils, the promises are the
    enriched entries, one per id. *)
Lemma outcomes_fulfilled (likes : list (option string)) (n : nat) :
  (forall i videoId, nth_error likes i = Some videoId ->
     exists data, upstream env (n + i) (streams_url videoId) = Fulfilled data) ->
  exists videoDetails, outcomes env n likes = map Fulfilled videoDetails.
Proof.
  revert n. induction likes as [ | v rest IH]; intros n Hall.
  - exists []. reflexivity.
  - destruct (Hall 0%nat v eq_refl) as [data Hdata].
    rewrite Nat.add_0_r in Hdata.
    destruct (IH (S n)) as [vs Hvs].
    { intros i videoId Hi. rewrite Nat.add_succ_l, <- Nat.add_succ_r.
      apply (Hall (S i)). exact Hi. }
    eexists (_ :: vs). simpl. rewrite Hdata, Hvs. simpl. reflexivity.
Qed.

End Aggregation.

(** C2: when the upstream request for one of the user's liked ids fails,
    the liked-videos request is answered 500 'Failed to fetch video
    details': the body is the error, no list of entries, and the database is
    untouched. *)
Theorem liked_videos_fails_when_one_fetch_fails
        (env : Env) (req : Request) (w : World) (uid : Z)
        (i : nat) (videoId : option string) :
  logged_in req uid ->
  nth_error (listLikedIds (Some uid) (db w)) i = Some videoId ->
  upstream env i (streams_url videoId) = Rejected ->
  fst (serve GetLikedVideos env req w)
  = res_status_json 500 (JError "Failed to fetch video details")
  /\ db (snd (serve GetLikedVideos env req w)) = db w.
Proof.
  intros session Hi Hdown.
  rewrite (serve_liked_videos_runs env req w uid session). cbn [fst snd].
  split; [ | reflexivity].
  rewrite (promise_all_rejected _ i); [reflexivity | ].
  rewrite (outcomes_nth env _ 0 i videoId Hi). simpl.
  rewrite Hdown. reflexivity.
Qed.

Lemma liked_videos_fails_when_one_fetch_fails_witness :
  logged_in (Sample.alice "A") 1
  /\ listLikedIds (Some 1) (db Sample.liked_ABC)
     = [Some "C"; Some "B"; Some "A"]%string
  /\ upstream (Sample.at_time_b_down 4) 1 (streams_url (Some "B"%string)) = Rejected
  /\ fst (serve GetLikedVideos (Sample.at_time_b_down 4) (Sample.alice "A")
            Sample.liked_ABC)
     = res_status_json 500 (JError "Failed to fetch video details").
Proof.
  assert (Hs : logged_in (Sample.alice "A") 1)
    by (split; [reflexivity | discriminate]).
  split; [exact Hs | ]. split; [reflexivity | ]. split; [reflexivity | ].
  apply (liked_videos_fails_when_one_fetch_fails
           (Sample.at_time_b_down 4) (Sample.alice "A") Sample.liked_ABC 1
           1%nat (Some "B"%string) Hs); reflexivity.
Defined.

(** C8: for a user with no liked video the liked-videos request is answered
    200 with the empty list; the only call it makes is the query of the
    liked store, so no upstream request is issued. *)
Theorem liked_videos_of_none_is_empty
        (env : Env) (req : Request) (w : World) (uid : Z) :
  logged_in req uid ->
  likes_of uid (db w) = [] ->
  serve GetLikedVideos env req w
  = (res_json (JVideoDetails []), traced w [DbAll SQL_SELECT_LIKED]).
Proof.
  intros session Hnone.
  rewrite (serve_liked_videos_runs env req w uid session).
  unfold listLikedIds, select_liked. fold (likes_of uid (db w)).
  rewrite Hnone. reflexivity.
Qed.

Lemma liked_videos_of_none_is_empty_witness :
  logged_in (Sample.alice "A") 1
  /\ likes_of 1 (db Sample.saved_AA) = []
  /\ serve GetLikedVideos (Sample.at_time_b_down 3) (Sample.alice "A") Sample.saved_AA
     = (res_json (JVideoDetails []), traced Sample.saved_AA [DbAll SQL_SELECT_LIKED]).
Proof.
  assert (Hs : logged_in (Sample.alice "A") 1)
    by (split; [reflexivity | discriminate]).
  split; [exact Hs | ]. split; [reflexivity | ].
  apply (liked_videos_of_none_is_empty
           (Sample.at_time_b_down 3) (Sample.alice "A") Sample.saved_AA 1 Hs).
  reflexivity.
Defined.

(** C3: when every upstream request of the fan-out succeeds, the
    liked-videos request is answered 200 with one entry per liked id, in
    the order of listLikedIds; the entry at position [i] carries the id at
    position [i] and the title, thumbnailUrl (as thumbnail), uploader (as
    channel) and duration of the answer to request [i].  listLikedIds is the
    videoId column of the user's rows sorted by liked_at, descending. *)
Theorem liked_videos_enriched_in_order
        (env : Env) (req : Request) (w : World) (uid : Z) :
  logged_in req uid ->
  (forall i videoId,
      nth_error (listLikedIds (Some uid) (db w)) i = Some videoId ->
      exists data, upstream env i (streams_url videoId) = Fulfilled data) ->
  exists videoDetails,
    fst (serve GetLikedVideos env req w) = res_json (JVideoDetails videoDetails)
    /\ length videoDetails = length (listLikedIds (Some uid) (db w))
    /\ (forall i videoId,
           nth_error (listLikedIds (Some uid) (db w)) i = Some videoId ->
           exists data,
             upstream env i (streams_url videoId) = Fulfilled data
             /\ nth_error videoDetails i
                = Some {| Liked.videoId := videoId;
                          Liked.title := Stream.title data;
                          Liked.thumbnail := Stream.thumbnailUrl data;
                          Liked.channel := Stream.uploader data;
                          Liked.duration := Stream.duration data |})
    /\ (exists rows,
           listLikedIds (Some uid) (db w) = map lk_video_id rows
           /\ StronglySorted (desc lk_liked_at) rows
           /\ Permutation (likes_of uid (db w)) rows).
Proof.
  intros session Hup.
  destruct (outcomes_fulfilled env (listLikedIds (Some uid) (db w)) 0 Hup)
    as [vs Hvs].
  exists vs.
  rewrite (serve_liked_videos_runs env req w uid session). cbn [fst].
  assert (Hall : promise_all (outcomes env 0 (listLikedIds (Some uid) (db w)))
                 = Fulfilled vs) by (apply promise_all_fulfilled, Hvs).
  rewrite Hall. split; [reflexivity | ]. split; [ | split].
  - rewrite <- (outcomes_length env _ 0), Hvs. symmetry. apply length_map.
  - intros i videoId Hi.
    destruct (Hup i videoId Hi) as [data Hdata]. exists data.
    split; [exact Hdata | ].
    pose proof (outcomes_nth env _ 0 i videoId Hi) as Hnth.
    simpl in Hnth. rewrite Hdata, Hvs, nth_error_map in Hnth.
    destruct (nth_error vs i) as [e | ]; [ | discriminate].
    simpl in Hnth. injection Hnth as ->. reflexivity.
  - apply listLikedIds_sorted.
Qed.

Lemma liked_videos_enriched_in_order_witness :
  logged_in (Sample.alice "A") 1
  /\ (forall i videoId,
         nth_error (listLikedIds (Some 1) (db Sample.liked_ABC)) i = Some videoId ->
         exists data,
           upstream (Sample.at_time 4) i (streams_url videoId) = Fulfilled data)
  /\ exists videoDetails,
       fst (serve GetLikedVideos (Sample.at_time 4) (Sample.alice "A") Sample.liked_ABC)
       = res_json (JVideoDetails videoDetails)
       /\ map Liked.videoId videoDetails = [Some "C"; Some "B"; Some "A"]%string.
Proof.
  assert (Hs : logged_in (Sample.alice "A") 1)
    by (split; [reflexivity | discriminate]).
  assert (Hup : forall i videoId,
             nth_error (listLikedIds (Some 1) (db Sample.liked_ABC)) i = Some videoId ->
             exists data,
               upstream (Sample.at_time 4) i (streams_url videoId) = Fulfilled data)
    by (intros i videoId _; exists Sample.metadata; reflexivity).
  split; [exact Hs | ]. split; [exact Hup | ].
  destruct (liked_videos_enriched_in_order
              (Sample.at_time 4) (Sample.alice "A") Sample.liked_ABC 1 Hs Hup)
    as (videoDetails & Hres & _).
  exists videoDetails. split; [exact Hres | ].
  vm_compute in Hres. injection Hres as <-. reflexivity.
Defined.

(* ------------------------------------------------------------------ *)
(** ** The library as a whole: what every served request keeps *)

Section Keys.

Lemma keys_ok_insert (seq : Z) (ids : list Z) :
  Library.keys_ok seq ids ->
  Library.keys_ok (autoincrement seq ids) (ids ++ [autoincrement seq ids]).
Proof.
  intros [Hnd Hle].
  destruct (autoincrement_fresh seq ids) as [Hseq Hfresh]. split.
  - eapply Permutation_NoDup; [apply Permutation_cons_append | ].
    constructor; [ | exact Hnd].
    intros Hin. rewrite Forall_forall in Hfresh.
    specialize (Hfresh _ Hin). lia.
  - apply Forall_app. split.
    + eapply Forall_impl; [ | exact Hfresh]. simpl. intros; lia.
    + constructor; [lia | constructor].
Qed.

Lemma keys_ok_filter {A : Type} (key : A -> Z) (f : A -> bool)
      (seq : Z) (l : list A) :
  Library.keys_ok seq (map key l) -> Library.keys_ok seq (map key (filter f l)).
Proof.
  intros [Hnd Hle]. split.
  - clear Hle. induction l as [ | x l IH]; simpl in *; [constructor | ].
    inversion Hnd as [ | ? ? Hx Hl]; subst.
    destruct (f x); simpl; [ | apply IH; assumption].
    constructor; [ | apply IH; assumption].
    intros Hin. apply Hx. apply in_map_iff in Hin.
    destruct Hin as (y & Hy & Hin). apply filter_In in Hin.
    apply in_map_iff. exists y. tauto.
  - rewrite Forall_map in *. rewrite Forall_forall in *.
    intros x Hx. apply filter_In in Hx. apply Hle. tauto.
Qed.

(** What a served request does to the database: nothing, or the one
    statement of its route on behalf of the session's user. *)
Lemma serve_db (r : Route) (env : Env) (req : Request) (w : World) :
  db (snd (serve r env req w)) = db w
  \/ (truthy_num (session_userId req) = true
      /\ match r with
         | PostSaveVideo =>
             truthy (Body.videoId (body req)) = true
             /\ db (snd (serve r env req w))
                = snd (insert_saved (now env) (session_userId req)
                         (bind_text (Body.videoId (body req)))
                         (bind_text (Body.title (body req)))
                         (bind_text (Body.thumbnail (body req)))
                         (bind_text (Body.channel (body req))) (db w))
         | PostLikeVideo =>
             truthy (Body.videoId (body req)) = true
             /\ db (snd (serve r env req w))
                = snd (insert_liked liked_videos_unique (now env) (session_userId req)
                         (bind_text (Body.videoId (body req))) (db w))
         | DeleteUnlikeVideo =>
             db (snd (serve r env req w))
             = snd (delete_liked (session_userId req) (Some (params_videoId req)) (db w))
         | DeleteUnsaveVideo =>
             db (snd (serve r env req w))
             = snd (delete_saved (session_userId req) (Some (params_videoId req)) (db w))
         | GetSavedVideos | GetLikedVideos => False
         end).
Proof.
  unfold serve, requireLogin.
  destruct (truthy_num (session_userId req)) eqn:Hs; cbn [negb]; [ | left; reflexivity].
  destruct r; cbn [handler].
  - destruct (truthy (Body.videoId (body req))
              && truthy (Body.title (body req))
              && truthy (Body.thumbnail (body req))
              && truthy (Body.channel (body req))) eqn:Hall.
    + apply andb_true_iff in Hall. destruct Hall as [Hall H4].
      apply andb_true_iff in Hall. destruct Hall as [Hall H3].
      apply andb_true_iff in Hall. destruct Hall as [H1 H2].
      right. rewrite (save_video_inserts env req w H1 H2 H3 H4). auto.
    + left. rewrite (save_video_rejects env req w Hall). reflexivity.
  - destruct (truthy (Body.videoId (body req))) eqn:H1.
    + right. rewrite (like_video_inserts env req w H1). auto.
    + left. rewrite (like_video_rejects env req w H1). reflexivity.
  - right. rewrite unlike_video_runs. auto.
  - right. rewrite unsave_video_runs. auto.
  - left. reflexivity.
  - left. rewrite liked_videos_list_runs. reflexivity.
Qed.

End Keys.

(** X1: every served request, whatever its route, session, body and
    upstream, keeps the primary keys of both tables distinct and not above
    the AUTOINCREMENT counters. *)
Theorem serve_keeps_keys_distinct
        (r : Route) (env : Env) (req : Request) (w : World) :
  Library.db_ok (db w) -> Library.db_ok (db (snd (serve r env req w))).
Proof.
  intros [Hsaved Hliked].
  destruct (serve_db r env req w) as [-> | [_ H]]; [split; assumption | ].
  destruct r; try contradiction.
  - destruct H as [_ ->]. split; cbn [insert_saved snd saved_videos saved_seq liked_videos liked_seq].
    + rewrite map_app. apply keys_ok_insert, Hsaved.
    + exact Hliked.
  - destruct H as [_ ->]. split; cbn; [exact Hsaved | ].
    rewrite map_app. apply keys_ok_insert, Hliked.
  - rewrite H. split; cbn [delete_liked snd saved_videos saved_seq liked_videos liked_seq].
    + exact Hsaved.
    + apply keys_ok_filter, Hliked.
  - rewrite H. split; cbn [delete_saved snd saved_videos saved_seq liked_videos liked_seq].
    + apply keys_ok_filter, Hsaved.
    + exact Hliked.
Qed.

Lemma serve_keeps_keys_distinct_witness :
  Library.db_ok (db Sample.liked_ABC)
  /\ Library.db_ok (db (snd (serve PostLikeVideo (Sample.at_time 4) (Sample.alice "A")
                               Sample.liked_ABC))).
Proof.
  assert (H : Library.db_ok (db Sample.liked_ABC)).
  { split; split; cbn.
    - constructor.
    - constructor.
    - repeat constructor; cbn; intuition discriminate.
    - repeat constructor; cbn; lia. }
  split; [exact H | ].
  apply (serve_keeps_keys_distinct PostLikeVideo); exact H.
Defined.

Section Frame.

Context {A : Type}.
Variables (p m : A -> bool).

Lemma filter_keeps_unmatched (l : list A) :
  (forall x, p x = true -> m x = false) ->
  filter p (filter (fun x => negb (m x)) l) = filter p l.
Proof.
  intros H. induction l as [ | x l IH]; simpl; [reflexivity | ].
  destruct (m x) eqn:Hm; simpl.
  - destruct (p x) eqn:Hp; [ | exact IH].
    rewrite (H x Hp) in Hm. discriminate.
  - rewrite IH. reflexivity.
Qed.

Lemma filter_app_unmatched (l : list A) (x : A) :
  p x = false -> filter p (l ++ [x]) = filter p l.
Proof.
  intros H. rewrite filter_app. simpl. rewrite H. apply app_nil_r.
Qed.

End Frame.

Lemma eq_int_other (session : option Z) (uid : Z) :
  session <> Some uid -> eq_int session (Some uid) = false.
Proof.
  intros H. destruct session as [u | ]; simpl; [ | reflexivity].
  apply Z.eqb_neq. congruence.
Qed.

Lemma eq_int_sym (a b : option Z) : eq_int a b = eq_int b a.
Proof. destruct a, b; simpl; try reflexivity. apply Z.eqb_sym. Qed.

Lemma eq_int_true (a b : option Z) : eq_int a b = true -> a = b.
Proof.
  destruct a, b; simpl; try discriminate.
  intros H. apply Z.eqb_eq in H. congruence.
Qed.

Lemma eq_text_true (a b : option string) : eq_text a b = true -> a = b.
Proof.
  destruct a, b; simpl; try discriminate.
  intros H. apply String.eqb_eq in H. congruence.
Qed.

(** X2: a served request never changes the rows of another user: when the
    session is not that of [uid'], the liked rows and the saved rows of
    [uid'] are the same after the request, whatever the route and the
    body. *)
Theorem serve_leaves_other_users_rows
        (r : Route) (env : Env) (req : Request) (w : World) (uid' : Z) :
  session_userId req <> Some uid' ->
  likes_of uid' (db (snd (serve r env req w))) = likes_of uid' (db w)
  /\ Library.saves_of uid' (db (snd (serve r env req w))) = Library.saves_of uid' (db w).
Proof.
  intros Hother. unfold likes_of, Library.saves_of.
  destruct (serve_db r env req w) as [-> | [_ H]]; [split; reflexivity | ].
  pose proof (eq_int_other _ _ Hother) as Hne.
  destruct r; try contradiction.
  - destruct H as [_ ->]. cbn. split; [reflexivity | ].
    apply filter_app_unmatched. exact Hne.
  - destruct H as [_ ->]. cbn. split; [ | reflexivity].
    apply filter_app_unmatched. exact Hne.
  - rewrite H. cbn. split; [ | reflexivity].
    apply filter_keeps_unmatched. intros x Hx. unfold liked_matches.
    apply eq_int_true in Hx. rewrite Hx, eq_int_sym, Hne. reflexivity.
  - rewrite H. cbn. split; [reflexivity | ].
    apply filter_keeps_unmatched. intros x Hx. unfold saved_matches.
    apply eq_int_true in Hx. rewrite Hx, eq_int_sym, Hne. reflexivity.
Qed.

Lemma serve_leaves_other_users_rows_witness :
  session_userId (Sample.alice "A") <> Some 2
  /\ likes_of 2 (db (snd (serve DeleteUnlikeVideo (Sample.at_time 4) (Sample.alice "A")
                            Sample.liked_ABC)))
     = likes_of 2 (db Sample.liked_ABC).
Proof.
  assert (H : session_userId (Sample.alice "A") <> Some 2) by discriminate.
  split; [exact H | ].
  apply (serve_leaves_other_users_rows DeleteUnlikeVideo); exact H.
Defined.

(** X3: a served request changes the entries of at most one (user, video)
    pair, the session's user with the video id the request binds: for any
    other pair the matching rows of both tables are the same afterwards. *)
Theorem serve_leaves_other_pairs
        (r : Route) (env : Env) (req : Request) (w : World)
        (uid : Z) (videoId : string) :
  (session_userId req, Library.target r req) <> (Some uid, Some videoId) ->
  filter (liked_matches (Some uid) (Some videoId))
         (liked_videos (db (snd (serve r env req w))))
  = filter (liked_matches (Some uid) (Some videoId)) (liked_videos (db w))
  /\ filter (saved_matches (Some uid) (Some videoId))
            (saved_videos (db (snd (serve r env req w))))
     = filter (saved_matches (Some uid) (Some videoId)) (saved_videos (db w)).
Proof.
  intros Hother.
  assert (Hne : eq_int (session_userId req) (Some uid)
                && eq_text (Library.target r req) (Some videoId) = false).
  { destruct (eq_int _ _) eqn:E1; [ | reflexivity].
    destruct (eq_text _ _) eqn:E2; [ | reflexivity].
    apply eq_int_true in E1. apply eq_text_true in E2.
    exfalso. apply Hother. congruence. }
  destruct (serve_db r env req w) as [-> | [_ H]]; [split; reflexivity | ].
  destruct r; try contradiction; cbn [Library.target] in Hne.
  - destruct H as [_ ->]. cbn. split; [reflexivity | ].
    apply filter_app_unmatched. exact Hne.
  - destruct H as [_ ->]. cbn. split; [ | reflexivity].
    apply filter_app_unmatched. exact Hne.
  - rewrite H. cbn. split; [ | reflexivity].
    apply filter_keeps_unmatched. intros x Hx. unfold liked_matches in *.
    apply andb_true_iff in Hx. destruct Hx as [Hu Hv].
    apply eq_int_true in Hu. apply eq_text_true in Hv. rewrite Hu, Hv.
    rewrite eq_int_sym, (eq_int_sym (Some uid)) in *.
    destruct (eq_int (session_userId req) (Some uid)); [ | reflexivity].
    simpl in *. rewrite String.eqb_sym. exact Hne.
  - rewrite H. cbn. split; [reflexivity | ].
    apply filter_keeps_unmatched. intros x Hx. unfold saved_matches in *.
    apply andb_true_iff in Hx. destruct Hx as [Hu Hv].
    apply eq_int_true in Hu. apply eq_text_true in Hv. rewrite Hu, Hv.
    rewrite eq_int_sym, (eq_int_sym (Some uid)) in *.
    destruct (eq_int (session_userId req) (Some uid)); [ | reflexivity].
    simpl in *. rewrite String.eqb_sym. exact Hne.
Qed.

Lemma serve_leaves_other_pairs_witness :
  (session_userId (Sample.alice "A"), Library.target DeleteUnlikeVideo (Sample.alice "A"))
  <> (Some 1, Some "B"%string)
  /\ liked_count 1 "B"
       (db (snd (serve DeleteUnlikeVideo (Sample.at_time 4) (Sample.alice "A")
                   Sample.liked_ABC)))
     = 1%nat.
Proof.
  assert (H : (session_userId (Sample.alice "A"),
               Library.target DeleteUnlikeVideo (Sample.alice "A"))
              <> (Some 1, Some "B"%string)) by discriminate.
  split; [exact H | ].
  unfold liked_count.
  rewrite (proj1 (serve_leaves_other_pairs DeleteUnlikeVideo (Sample.at_time 4)
                    (Sample.alice "A") Sample.liked_ABC 1 "B" H)).
  reflexivity.
Defined.

(* ------------------------------------------------------------------ *)
(** ** More on the aggregation *)

(** X4: the two listing routes only read: whatever the session and
    whatever the upstream answers, the database after GET /api/saved-videos
    and after GET /api/liked-videos is the database before. *)
Theorem listing_routes_only_read (env : Env) (req : Request) (w : World) :
  db (snd (serve GetSavedVideos env req w)) = db w
  /\ db (snd (serve GetLikedVideos env req w)) = db w.
Proof.
  split.
  - destruct (serve_db GetSavedVideos env req w) as [H | [_ []]]. exact H.
  - destruct (serve_db GetLikedVideos env req w) as [H | [_ []]]. exact H.
Qed.

(** X5: for a logged-in user the liked-videos route makes one query of the
    liked store and then one upstream request per liked id, in the order of
    the ids and with the id in the URL, also for ids that repeat and also
    when some of the requests fail: a failure stops no request from being
    issued. *)
Theorem liked_videos_requests_every_id
        (env : Env) (req : Request) (w : World) (uid : Z) :
  logged_in req uid ->
  trace (snd (serve GetLikedVideos env req w))
  = trace w
    ++ DbAll SQL_SELECT_LIKED
       :: map (fun videoId => AxiosGet (PIPED_API_BASE ++ "/streams/"
                                          ++ template_text videoId)%string)
              (listLikedIds (Some uid) (db w)).
Proof.
  intros session.
  rewrite (serve_liked_videos_runs env req w uid session). reflexivity.
Qed.

Lemma liked_videos_requests_every_id_witness :
  logged_in (Sample.alice "A") 1
  /\ trace (snd (serve GetLikedVideos (Sample.at_time_b_down 4) (Sample.alice "A")
                   Sample.liked_ABC))
     = trace Sample.liked_ABC
       ++ [DbAll SQL_SELECT_LIKED;
           AxiosGet "https://pipedapi.kavin.rocks/streams/C";
           AxiosGet "https://pipedapi.kavin.rocks/streams/B";
           AxiosGet "https://pipedapi.kavin.rocks/streams/A"].
Proof.
  assert (Hs : logged_in (Sample.alice "A") 1)
    by (split; [reflexivity | discriminate]).
  split; [exact Hs | ].
  apply (liked_videos_requests_every_id
           (Sample.at_time_b_down 4) (Sample.alice "A") Sample.liked_ABC 1 Hs).
Defined.

Lemma promise_all_rejected_inv {A : Type} (ps : list (Settled A)) :
  promise_all ps = Rejected -> exists i, nth_error ps i = Some Rejected.
Proof.
  induction ps as [ | p ps IH]; simpl; [discriminate | ].
  destruct p as [v | ]; [ | intros _; exists 0%nat; reflexivity].
  destruct (promise_all ps); [discriminate | ].
  intros _. destruct (IH eq_refl) as [i Hi]. exists (S i). exact Hi.
Qed.

Lemma outcomes_rejected_inv (env : Env) (likes : list (option string)) (i : nat) :
  nth_error (outcomes env 0 likes) i = Some Rejected ->
  exists videoId,
    nth_error likes i = Some videoId
    /\ upstream env i (streams_url videoId) = Rejected.
Proof.
  intros H.
  destruct (nth_error likes i) as [videoId | ] eqn:E.
  - exists videoId. split; [reflexivity | ].
    rewrite (outcomes_nth env likes 0 i videoId E) in H. simpl in H.
    destruct (upstream env i (streams_url videoId)); [discriminate | reflexivity].
  - apply nth_error_None in E. rewrite <- (outcomes_length env likes 0) in E.
    apply nth_error_None in E. congruence.
Qed.

(** X6: for a logged-in user the liked-videos route has two answers only:
    500 'Failed to fetch video details' exactly when the upstream request
    for one of the liked ids fails, and otherwise 200 with the list of
    details. *)
Theorem liked_videos_fails_only_when_a_fetch_fails
        (env : Env) (req : Request) (w : World) (uid : Z) :
  logged_in req uid ->
  (fst (serve GetLikedVideos env req w)
   = res_status_json 500 (JError "Failed to fetch video details")
   <-> exists i videoId,
         nth_error (listLikedIds (Some uid) (db w)) i = Some videoId
         /\ upstream env i (streams_url videoId) = Rejected)
  /\ (fst (serve GetLikedVideos env req w)
      = res_status_json 500 (JError "Failed to fetch video details")
      \/ exists videoDetails,
           fst (serve GetLikedVideos env req w) = res_json (JVideoDetails videoDetails)).
Proof.
  intros session.
  rewrite (serve_liked_videos_runs env req w uid session). cbn [fst].
  destruct (promise_all (outcomes env 0 (listLikedIds (Some uid) (db w))))
    as [vs | ] eqn:E.
  - split; [ | right; exists vs; reflexivity].
    split; [discriminate | ].
    intros (i & videoId & Hi & Hdown). exfalso.
    pose proof (outcomes_nth env _ 0 i videoId Hi) as Hnth.
    simpl in Hnth. rewrite Hdown in Hnth. cbn [details] in Hnth.
    apply promise_all_rejected in Hnth. congruence.
  - split; [ | left; reflexivity].
    split; [ | reflexivity]. intros _.
    destruct (promise_all_rejected_inv _ E) as [i Hi].
    destruct (outcomes_rejected_inv env _ i Hi) as (videoId & Hv & Hdown).
    exists i, videoId. split; assumption.
Qed.

Lemma liked_videos_fails_only_when_a_fetch_fails_witness :
  logged_in (Sample.alice "A") 1
  /\ exists i videoId,
       nth_error (listLikedIds (Some 1) (db Sample.liked_ABC)) i = Some videoId
       /\ upstream (Sample.at_time_b_down 4) i (streams_url videoId) = Rejected.
Proof.
  assert (Hs : logged_in (Sample.alice "A") 1)
    by (split; [reflexivity | discriminate]).
  split; [exact Hs | ].
  apply (proj1 (liked_videos_fails_only_when_a_fetch_fails
                  (Sample.at_time_b_down 4) (Sample.alice "A") Sample.liked_ABC 1 Hs)).
  reflexivity.
Defined.

(* ------------------------------------------------------------------ *)
(** ** Generated keys *)

Section Counters.

Lemma serve_counters_grow (r : Route) (env : Env) (req : Request) (w : World) :
  saved_seq (db w) <= saved_seq (db (snd (serve r env req w)))
  /\ liked_seq (db w) <= liked_seq (db (snd (serve r env req w))).
Proof.
  destruct (serve_db r env req w) as [-> | [_ H]]; [lia | ].
  destruct r; try contradiction.
  - destruct H as [_ ->]. cbn.
    pose proof (autoincrement_fresh (saved_seq (db w)) (map sv_id (saved_videos (db w)))).
    lia.
  - destruct H as [_ ->]. cbn.
    pose proof (autoincrement_fresh (liked_seq (db w)) (map lk_id (liked_videos (db w)))).
    lia.
  - rewrite H. cbn. lia.
  - rewrite H. cbn. lia.
Qed.

Lemma serve_all_counters_grow (calls : list Library.Call) (w : World) :
  saved_seq (db w) <= saved_seq (db (Library.serve_all calls w))
  /\ liked_seq (db w) <= liked_seq (db (Library.serve_all calls w)).
Proof.
  revert w. induction calls as [ | c calls IH]; intros w; simpl; [lia | ].
  pose proof (serve_counters_grow (Library.call_route c) (Library.call_env c)
                (Library.call_request c) w).
  pose proof (IH (snd (serve (Library.call_route c) (Library.call_env c)
                         (Library.call_request c) w))).
  unfold Library.serve_all in *. lia.
Qed.

(** An answered like carries the key the counter moved to. *)
Lemma like_answer (env : Env) (req : Request) (w : World) (likeId : Z) :
  fst (serve PostLikeVideo env req w) = res_json (JLikeId likeId) ->
  liked_seq (db w) < likeId
  /\ liked_seq (db (snd (serve PostLikeVideo env req w))) = likeId.
Proof.
  unfold serve, requireLogin.
  destruct (truthy_num (session_userId req)); cbn [negb handler]; [ | discriminate].
  destruct (truthy (Body.videoId (body req))) eqn:H1.
  - rewrite (like_video_inserts env req w H1). cbn. intros [= <-].
    split; [ | reflexivity].
    apply autoincrement_fresh.
  - rewrite (like_video_rejects env req w H1). discriminate.
Qed.

Lemma save_answer (env : Env) (req : Request) (w : World) (savedId : Z) :
  fst (serve PostSaveVideo env req w) = res_json (JSavedId savedId) ->
  saved_seq (db w) < savedId
  /\ saved_seq (db (snd (serve PostSaveVideo env req w))) = savedId.
Proof.
  unfold serve, requireLogin.
  destruct (truthy_num (session_userId req)); cbn [negb handler]; [ | discriminate].
  destruct (truthy (Body.videoId (body req))
            && truthy (Body.title (body req))
            && truthy (Body.thumbnail (body req))
            && truthy (Body.channel (body req))) eqn:Hall.
  - apply andb_true_iff in Hall. destruct Hall as [Hall H4].
    apply andb_true_iff in Hall. destruct Hall as [Hall H3].
    apply andb_true_iff in Hall. destruct Hall as [H1 H2].
    rewrite (save_video_inserts env req w H1 H2 H3 H4). cbn. intros [= <-].
    split; [ | reflexivity]. apply autoincrement_fresh.
  - rewrite (save_video_rejects env req w Hall). discriminate.
Qed.

End Counters.

(** X7: a likeId is never handed out again: whatever requests are served in
    between (unlikes included), a later answered like carries a larger
    likeId than an earlier one. *)
Theorem like_ids_are_never_reused
        (env env' : Env) (req req' : Request) (w : World)
        (calls : list Library.Call) (likeId likeId' : Z) :
  fst (serve PostLikeVideo env req w) = res_json (JLikeId likeId) ->
  fst (serve PostLikeVideo env' req'
         (Library.serve_all calls (snd (serve PostLikeVideo env req w))))
  = res_json (JLikeId likeId') ->
  likeId < likeId'.
Proof.
  intros H1 H2.
  apply like_answer in H1. apply like_answer in H2.
  pose proof (serve_all_counters_grow calls (snd (serve PostLikeVideo env req w))).
  lia.
Qed.

Lemma like_ids_are_never_reused_witness :
  fst (serve PostLikeVideo (Sample.at_time 1) (Sample.alice "A") Sample.fresh)
  = res_json (JLikeId 1)
  /\ fst (serve PostLikeVideo (Sample.at_time 3) (Sample.alice "A")
            (Library.serve_all [Library.unlike_A]
               (snd (serve PostLikeVideo (Sample.at_time 1) (Sample.alice "A")
                       Sample.fresh))))
     = res_json (JLikeId 2)
  /\ 1 < 2.
Proof.
  split; [reflexivity | ]. split; [reflexivity | ].
  apply (like_ids_are_never_reused
           (Sample.at_time 1) (Sample.at_time 3) (Sample.alice "A") (Sample.alice "A")
           Sample.fresh [Library.unlike_A] 1 2); reflexivity.
Defined.

(** X8: a savedId is never handed out again: whatever requests are served
    in between (unsaves included), a later answered save carries a larger
    savedId than an earlier one. *)
Theorem saved_ids_are_never_reused
        (env env' : Env) (req req' : Request) (w : World)
        (calls : list Library.Call) (savedId savedId' : Z) :
  fst (serve PostSaveVideo env req w) = res_json (JSavedId savedId) ->
  fst (serve PostSaveVideo env' req'
         (Library.serve_all calls (snd (serve PostSaveVideo env req w))))
  = res_json (JSavedId savedId') ->
  savedId < savedId'.
Proof.
  intros H1 H2.
  apply save_answer in H1. apply save_answer in H2.
  pose proof (serve_all_counters_grow calls (snd (serve PostSaveVideo env req w))).
  lia.
Qed.

Lemma saved_ids_are_never_reused_witness :
  fst (serve PostSaveVideo (Sample.at_time 1) (Sample.alice "A") Sample.fresh)
  = res_json (JSavedId 1)
  /\ fst (serve PostSaveVideo (Sample.at_time 3) (Sample.alice "A")
            (Library.serve_all [Library.unsave_A]
               (snd (serve PostSaveVideo (Sample.at_time 1) (Sample.alice "A")
                       Sample.fresh))))
     = res_json (JSavedId 2)
  /\ 1 < 2.
Proof.
  split; [reflexivity | ]. split; [reflexivity | ].
  apply (saved_ids_are_never_reused
           (Sample.at_time 1) (Sample.at_time 3) (Sample.alice "A") (Sample.alice "A")
           Sample.fresh [Library.unsave_A] 1 2); reflexivity.
Defined.

(* ------------------------------------------------------------------ *)
(** ** Listing what was saved and liked *)

(** X9: for a logged-in user the saved-videos route answers 200 with the
    user's saved rows and no other, each shown with its videoId, title,
    thumbnail, channel and savedAt, sorted by savedAt descending; the only
    call it makes is its query. *)
Theorem saved_videos_lists_own_rows_newest_first
        (env : Env) (req : Request) (w : World) (uid : Z) :
  logged_in req uid ->
  exists rows,
    serve GetSavedVideos env req w
    = (res_json (JSavedVideos (map saved_of_row rows)),
       traced w [DbAll SQL_SELECT_SAVED])
    /\ StronglySorted (desc sv_saved_at) rows
    /\ Permutation (Library.saves_of uid (db w)) rows.
Proof.
  intros session. exists (select_saved (Some uid) (db w)).
  unfold serve. rewrite (requireLogin_next req uid _ session).
  cbn [handler]. unfold saved_videos_list, bind. rewrite db_all_eq.
  destruct session as [-> _]. split; [reflexivity | ].
  unfold select_saved. split.
  - apply order_by_desc_sorted.
  - apply order_by_desc_perm.
Qed.

Lemma saved_videos_lists_own_rows_newest_first_witness :
  logged_in (Sample.alice "A") 1
  /\ exists rows,
       fst (serve GetSavedVideos (Sample.at_time 3) (Sample.alice "A") Sample.saved_AA)
       = res_json (JSavedVideos (map saved_of_row rows))
       /\ Permutation (Library.saves_of 1 (db Sample.saved_AA)) rows.
Proof.
  assert (Hs : logged_in (Sample.alice "A") 1)
    by (split; [reflexivity | discriminate]).
  split; [exact Hs | ].
  destruct (saved_videos_lists_own_rows_newest_first
              (Sample.at_time 3) (Sample.alice "A") Sample.saved_AA 1 Hs)
    as (rows & Hres & _ & Hperm).
  exists rows. rewrite Hres. split; [reflexivity | exact Hperm].
Defined.

(** X10: a video that was just saved is listed: after an answered save with
    four non-empty fields, the saved-videos route of the same user shows an
    entry with exactly these fields and the time of the save, and its list
    is one longer than the user's saved rows were. *)
Theorem saved_video_is_listed
        (env env' : Env) (req : Request) (w : World) (uid : Z)
        (videoId title thumbnail channel : string) :
  logged_in req uid ->
  body req = {| Body.videoId := Str videoId; Body.title := Str title;
                Body.thumbnail := Str thumbnail; Body.channel := Str channel |} ->
  videoId <> ""%string -> title <> ""%string ->
  thumbnail <> ""%string -> channel <> ""%string ->
  exists videos,
    fst (serve GetSavedVideos env' req (snd (serve PostSaveVideo env req w)))
    = res_json (JSavedVideos videos)
    /\ In {| Saved.videoId := Some videoId; Saved.title := Some title;
             Saved.thumbnail := Some thumbnail; Saved.channel := Some channel;
             Saved.savedAt := now env |} videos
    /\ length videos = S (length (Library.saves_of uid (db w))).
Proof.
  intros session Hbody Hv Ht Hth Hc.
  assert (Htruthy : forall s, s <> ""%string -> truthy (Str s) = true).
  { intros s Hs. apply truthy_non_empty. exists s. split; [reflexivity | exact Hs]. }
  destruct (saved_videos_lists_own_rows_newest_first
              env' req (snd (serve PostSaveVideo env req w)) uid session)
    as (rows & Hres & _ & Hperm).
  exists (map saved_of_row rows). rewrite Hres. split; [reflexivity | ].
  revert Hperm. unfold serve at 1. rewrite (requireLogin_next req uid _ session).
  cbn [handler]. rewrite save_video_inserts by (rewrite Hbody; apply Htruthy; assumption).
  unfold Library.saves_of. cbn [snd db insert_saved saved_videos].
  rewrite filter_app. cbn [filter sv_user_id].
  destruct session as [Hu _]. rewrite Hu. cbn [eq_int]. rewrite Z.eqb_refl.
  rewrite Hbody. cbn [Body.videoId Body.title Body.thumbnail Body.channel bind_text].
  intros Hperm. split.
  - apply in_map_iff. eexists. split; [ | eapply Permutation_in; [exact Hperm | ]].
    2: { apply in_or_app. right. left. reflexivity. }
    reflexivity.
  - rewrite length_map, <- (Permutation_length Hperm), length_app. simpl. lia.
Qed.

Lemma saved_video_is_listed_witness :
  logged_in (Sample.alice "A") 1
  /\ exists videos,
       fst (serve GetSavedVideos (Sample.at_time 2) (Sample.alice "A")
              (snd (serve PostSaveVideo (Sample.at_time 1) (Sample.alice "A")
                      Sample.fresh)))
       = res_json (JSavedVideos videos)
       /\ length videos = 1%nat.
Proof.
  assert (Hs : logged_in (Sample.alice "A") 1)
    by (split; [reflexivity | discriminate]).
  split; [exact Hs | ].
  destruct (saved_video_is_listed
              (Sample.at_time 1) (Sample.at_time 2) (Sample.alice "A") Sample.fresh 1
              "A" "Some title" "https://img/0.jpg" "Some channel" Hs eq_refl)
    as (videos & Hres & _ & Hlen); try discriminate.
  exists videos. split; [exact Hres | exact Hlen].
Defined.

Lemma order_by_desc_newest {A : Type} (key : A -> Z) (l : list A) (x : A) :
  Forall (fun y => key y < key x) l ->
  order_by_desc key (l ++ [x]) = x :: order_by_desc key l.
Proof.
  induction l as [ | y l IH]; intros H; [reflexivity | ].
  inversion H as [ | ? ? Hy Hl]; subst.
  unfold order_by_desc in *. simpl. rewrite (IH Hl). simpl.
  destruct (key x <=? key y) eqn:E; [ | reflexivity].
  apply Z.leb_le in E. lia.
Qed.

(** X11: a like that is strictly more recent than all the user's likes goes
    to the front: the ids the liked-videos route fans out over afterwards
    are the new id followed by the ids as they were. *)
Theorem newest_like_is_listed_first
        (env : Env) (req : Request) (w : World) (uid : Z) (videoId : string) :
  logged_in req uid ->
  Body.videoId (body req) = Str videoId -> videoId <> ""%string ->
  Forall (fun r => lk_liked_at r < now env) (likes_of uid (db w)) ->
  listLikedIds (Some uid) (db (snd (serve PostLikeVideo env req w)))
  = Some videoId :: listLikedIds (Some uid) (db w).
Proof.
  intros session Hv Hne Hnew.
  assert (Ht : truthy (Body.videoId (body req)) = true).
  { apply truthy_non_empty. exists videoId. split; assumption. }
  unfold serve. rewrite (requireLogin_next req uid _ session).
  cbn [handler]. rewrite (like_video_inserts env req w Ht).
  unfold listLikedIds, select_liked, likes_of in *.
  cbn [snd db insert_liked liked_videos_unique liked_conflict existsb liked_videos].
  rewrite filter_app. cbn [filter lk_user_id].
  destruct session as [Hu _]. rewrite Hu. cbn [eq_int]. rewrite Z.eqb_refl.
  rewrite order_by_desc_newest by exact Hnew.
  rewrite Hv. reflexivity.
Qed.

Lemma newest_like_is_listed_first_witness :
  logged_in (Sample.alice "D") 1
  /\ Forall (fun r => lk_liked_at r < now (Sample.at_time 4))
            (likes_of 1 (db Sample.liked_ABC))
  /\ listLikedIds (Some 1)
       (db (snd (serve PostLikeVideo (Sample.at_time 4) (Sample.alice "D")
                   Sample.liked_ABC)))
     = [Some "D"; Some "C"; Some "B"; Some "A"]%string.
Proof.
  assert (Hs : logged_in (Sample.alice "D") 1)
    by (split; [reflexivity | discriminate]).
  assert (Hnew : Forall (fun r => lk_liked_at r < now (Sample.at_time 4))
                        (likes_of 1 (db Sample.liked_ABC)))
    by (repeat constructor).
  split; [exact Hs | ]. split; [exact Hnew | ].
  apply (newest_like_is_listed_first
           (Sample.at_time 4) (Sample.alice "D") Sample.liked_ABC 1 "D" Hs eq_refl);
    [discriminate | exact Hnew].
Defined.

(* ------------------------------------------------------------------ *)
(** ** How the commands compose *)

(** X12: liking a video the user had no entry for and then unliking it
    puts both tables back as they were; only the counter of the liked keys
    has moved. *)
Theorem like_then_unlike_restores
        (env env' : Env) (req : Request) (w : World) (uid : Z) :
  logged_in req uid ->
  Body.videoId (body req) = Str (params_videoId req) ->
  params_videoId req <> ""%string ->
  liked_count uid (params_videoId req) (db w) = 0%nat ->
  let w' := snd (serve DeleteUnlikeVideo env' req (snd (serve PostLikeVideo env req w))) in
  liked_videos (db w') = liked_videos (db w)
  /\ saved_videos (db w') = saved_videos (db w)
  /\ saved_seq (db w') = saved_seq (db w)
  /\ liked_seq (db w) < liked_seq (db w').
Proof.
  intros session Hv Hne Hcount w'. unfold w'.
  assert (Ht : truthy (Body.videoId (body req)) = true).
  { apply truthy_non_empty. eexists. split; eassumption. }
  unfold serve. rewrite !(requireLogin_next req uid _ session).
  cbn [handler]. rewrite (like_video_inserts env req w Ht).
  rewrite unlike_video_runs.
  cbn [snd db delete_liked insert_liked liked_videos_unique liked_conflict existsb
       liked_videos saved_videos saved_seq liked_seq].
  destruct session as [Hu _]. rewrite Hu, Hv. cbn [bind_text].
  repeat split.
  - rewrite filter_app. cbn [filter].
    rewrite liked_matches_own by reflexivity. cbn [negb]. rewrite app_nil_r.
    apply filter_nil_negb. apply length_zero_iff_nil. exact Hcount.
  - apply autoincrement_fresh.
Qed.

Lemma like_then_unlike_restores_witness :
  logged_in (Sample.alice "D") 1
  /\ liked_count 1 "D" (db Sample.liked_ABC) = 0%nat
  /\ liked_videos
       (db (snd (serve DeleteUnlikeVideo (Sample.at_time 5) (Sample.alice "D")
                   (snd (serve PostLikeVideo (Sample.at_time 4) (Sample.alice "D")
                           Sample.liked_ABC)))))
     = liked_videos (db Sample.liked_ABC).
Proof.
  assert (Hs : logged_in (Sample.alice "D") 1)
    by (split; [reflexivity | discriminate]).
  split; [exact Hs | ]. split; [reflexivity | ].
  apply (like_then_unlike_restores
           (Sample.at_time 4) (Sample.at_time 5) (Sample.alice "D") Sample.liked_ABC 1
           Hs eq_refl); [discriminate | reflexivity].
Defined.

(** X13: saving a video the user had no entry for and then unsaving it puts
    both tables back as they were; only the counter of the saved keys has
    moved. *)
Theorem save_then_unsave_restores
        (env env' : Env) (req : Request) (w : World) (uid : Z) :
  logged_in req uid ->
  Body.videoId (body req) = Str (params_videoId req) ->
  params_videoId req <> ""%string ->
  non_empty (Body.title (body req)) ->
  non_empty (Body.thumbnail (body req)) ->
  non_empty (Body.channel (body req)) ->
  saved_count uid (params_videoId req) (db w) = 0%nat ->
  let w' := snd (serve DeleteUnsaveVideo env' req (snd (serve PostSaveVideo env req w))) in
  saved_videos (db w') = saved_videos (db w)
  /\ liked_videos (db w') = liked_videos (db w)
  /\ liked_seq (db w') = liked_seq (db w)
  /\ saved_seq (db w) < saved_seq (db w').
Proof.
  intros session Hv Hne Ht Hth Hc Hcount w'. unfold w'.
  assert (H1 : truthy (Body.videoId (body req)) = true).
  { apply truthy_non_empty. eexists. split; eassumption. }
  apply truthy_non_empty in Ht, Hth, Hc.
  unfold serve. rewrite !(requireLogin_next req uid _ session).
  cbn [handler]. rewrite (save_video_inserts env req w H1 Ht Hth Hc).
  rewrite unsave_video_runs.
  cbn [snd db delete_saved insert_saved liked_videos saved_videos saved_seq liked_seq].
  destruct session as [Hu _]. rewrite Hu, Hv. cbn [bind_text].
  repeat split.
  - rewrite filter_app. cbn [filter].
    rewrite saved_matches_own by reflexivity. cbn [negb]. rewrite app_nil_r.
    apply filter_nil_negb. apply length_zero_iff_nil. exact Hcount.
  - apply autoincrement_fresh.
Qed.

Lemma save_then_unsave_restores_witness :
  logged_in (Sample.alice "A") 1
  /\ saved_count 1 "A" (db Sample.liked_ABC) = 0%nat
  /\ saved_videos
       (db (snd (serve DeleteUnsaveVideo (Sample.at_time 5) (Sample.alice "A")
                   (snd (serve PostSaveVideo (Sample.at_time 4) (Sample.alice "A")
                           Sample.liked_ABC)))))
     = saved_videos (db Sample.liked_ABC).
Proof.
  assert (Hs : logged_in (Sample.alice "A") 1)
    by (split; [reflexivity | discriminate]).
  split; [exact Hs | ]. split; [reflexivity | ].
  apply (save_then_unsave_restores
           (Sample.at_time 4) (Sample.at_time 5) (Sample.alice "A") Sample.liked_ABC 1
           Hs eq_refl); try reflexivity; try discriminate;
    eexists; (split; [reflexivity | discriminate]).
Defined.

(** X14: an unlike or an unsave repeated right away is answered 404,
    whatever the first one was answered: after the first no entry of the
    pair is left. *)
Theorem repeated_delete_is_not_found
        (env env' : Env) (req : Request) (w : World) (uid : Z) :
  logged_in req uid ->
  fst (serve DeleteUnlikeVideo env' req (snd (serve DeleteUnlikeVideo env req w)))
  = res_status_json 404 (JError "Like not found")
  /\ fst (serve DeleteUnsaveVideo env' req (snd (serve DeleteUnsaveVideo env req w)))
     = res_status_json 404 (JError "Saved video not found").
Proof.
  intros session. split.
  - rewrite (serve_unlike_video_absent env' req _ uid session); [reflexivity | ].
    unfold serve. rewrite (requireLogin_next req uid _ session).
    cbn [handler]. rewrite unlike_video_runs.
    destruct session as [-> _]. unfold liked_count.
    cbn [snd db delete_liked liked_videos].
    rewrite filter_negb_none. reflexivity.
  - rewrite (serve_unsave_video_absent env' req _ uid session); [reflexivity | ].
    unfold serve. rewrite (requireLogin_next req uid _ session).
    cbn [handler]. rewrite unsave_video_runs.
    destruct session as [-> _]. unfold saved_count.
    cbn [snd db delete_saved saved_videos].
    rewrite filter_negb_none. reflexivity.
Qed.

Lemma repeated_delete_is_not_found_witness :
  logged_in (Sample.alice "A") 1
  /\ fst (serve DeleteUnlikeVideo (Sample.at_time 4) (Sample.alice "A") Sample.liked_ABC)
     = res_json JSuccess
  /\ fst (serve DeleteUnlikeVideo (Sample.at_time 5) (Sample.alice "A")
            (snd (serve DeleteUnlikeVideo (Sample.at_time 4) (Sample.alice "A")
                    Sample.liked_ABC)))
     = res_status_json 404 (JError "Like not found").
Proof.
  assert (Hs : logged_in (Sample.alice "A") 1)
    by (split; [reflexivity | discriminate]).
  split; [exact Hs | ]. split; [reflexivity | ].
  apply (repeated_delete_is_not_found
           (Sample.at_time 4) (Sample.at_time 5) (Sample.alice "A") Sample.liked_ABC 1 Hs).
Defined.

(** X15: one unlike removes every entry of the pair: when the user has
    N >= 1 liked rows of the video, the request is answered with success,
    the liked table keeps exactly the rows that do not match, in their
    order, and is N rows shorter; the saved table is untouched. *)
Theorem unlike_video_removes_every_entry
        (env : Env) (req : Request) (w : World) (uid : Z) :
  logged_in req uid ->
  (1 <= liked_count uid (params_videoId req) (db w))%nat ->
  let w' := snd (serve DeleteUnlikeVideo env req w) in
  fst (serve DeleteUnlikeVideo env req w) = res_json JSuccess
  /\ liked_videos (db w')
     = filter (fun r => negb (liked_matches (Some uid) (Some (params_videoId req)) r))
              (liked_videos (db w))
  /\ (length (liked_videos (db w')) + liked_count uid (params_videoId req) (db w)
      = length (liked_videos (db w)))%nat
  /\ saved_videos (db w') = saved_videos (db w).
Proof.
  intros session Hcount w'.
  destruct (serve_unlike_video_present env req w uid session Hcount) as [Hres _].
  split; [exact Hres | ]. unfold w'.
  unfold serve. rewrite (requireLogin_next req uid _ session).
  cbn [handler]. rewrite unlike_video_runs.
  destruct session as [-> _]. cbn [snd db delete_liked liked_videos saved_videos].
  split; [reflexivity | ]. split; [ | reflexivity].
  unfold liked_count.
  pose proof (filter_split_length (liked_matches (Some uid) (Some (params_videoId req)))
                                  (liked_videos (db w))).
  lia.
Qed.

Lemma unlike_video_removes_every_entry_witness :
  logged_in (Sample.alice "A") 1
  /\ liked_count 1 "A" (db Library.liked_ABCA) = 2%nat
  /\ (length (liked_videos (db (snd (serve DeleteUnlikeVideo (Sample.at_time 5)
                                       (Sample.alice "A") Library.liked_ABCA))))
      + 2 = 4)%nat.
Proof.
  assert (Hs : logged_in (Sample.alice "A") 1)
    by (split; [reflexivity | discriminate]).
  split; [exact Hs | ]. split; [reflexivity | ].
  destruct (unlike_video_removes_every_entry
              (Sample.at_time 5) (Sample.alice "A") Library.liked_ABCA 1 Hs)
    as (_ & _ & Hlen & _).
  { vm_compute. lia. }
  exact Hlen.
Defined.

(* ------------------------------------------------------------------ *)
(** ** Accounts *)

Section AccountFacts.

Lemma autoincrement_positive (seq : Z) (ids : list Z) :
  1 <= autoincrement seq ids.
Proof.
  unfold autoincrement.
  assert (0 <= fold_right Z.max 0 ids) by (induction ids; simpl; lia).
  lia.
Qed.

Lemma find_after {A : Type} (f : A -> bool) (l : list A) (x : A) :
  existsb f l = false -> find f (l ++ [x]) = if f x then Some x else None.
Proof.
  induction l as [ | y l IH]; simpl; [reflexivity | ].
  destruct (f y); simpl; [discriminate | exact IH].
Qed.

Lemma find_existsb {A : Type} (f : A -> bool) (l : list A) :
  find f l = None <-> existsb f l = false.
Proof.
  induction l as [ | y l IH]; simpl; [tauto | ].
  destruct (f y); simpl; [split; discriminate | exact IH].
Qed.

Lemma NoDup_map_same {A B : Type} (f : A -> B) (l : list A) (a b : A) :
  NoDup (map f l) -> In a l -> In b l -> f a = f b -> a = b.
Proof.
  induction l as [ | x l IH]; simpl; [contradiction | ].
  intros Hnd Ha Hb Hab. inversion Hnd as [ | ? ? Hx Hl]; subst.
  destruct Ha as [-> | Ha], Hb as [-> | Hb]; [reflexivity | | | auto].
  - exfalso. apply Hx. rewrite Hab. apply in_map, Hb.
  - exfalso. apply Hx. rewrite <- Hab. apply in_map, Ha.
Qed.

Lemma emails_free (t : Account.Users) (e : string) :
  Account.email_conflict (Some e) t = false -> ~ In e (Account.emails t).
Proof.
  unfold Account.email_conflict, Account.emails. intros Hfree Hin.
  apply in_flat_map in Hin. destruct Hin as (r & Hr & He).
  destruct (Account.us_email r) as [e' | ] eqn:E; [ | contradiction].
  destruct He as [-> | []].
  assert (Hex : existsb (fun r => eq_text (Account.us_email r) (Some e))
                        (Account.users t) = true).
  { apply existsb_exists. exists r. split; [exact Hr | ].
    rewrite E. simpl. apply String.eqb_refl. }
  congruence.
Qed.

(** What a registration does to the table: nothing, or it appends one row
    with a fresh key and an email no row had. *)
Lemma register_table (bc : Account.Bcrypt) (now : Z) (body : Credentials.t)
      (t : Account.Users) :
  snd (Account.register bc now body t) = t
  \/ exists e hashed,
       Credentials.email body = Str e
       /\ Account.hash bc (Credentials.password body) = Fulfilled hashed
       /\ Account.email_conflict (Some e) t = false
       /\ Account.register bc now body t
          = (Account.res_json
               (Account.JUserId
                  (autoincrement (Account.users_seq t)
                                 (map Account.us_id (Account.users t)))),
             {| Account.users :=
                  Account.users t
                  ++ [{| Account.us_id :=
                           autoincrement (Account.users_seq t)
                                         (map Account.us_id (Account.users t));
                         Account.us_email := Some e;
                         Account.us_password := Some hashed;
                         Account.us_name := bind_text (Credentials.name body);
                         Account.us_created_at := now |}];
                Account.users_seq :=
                  autoincrement (Account.users_seq t)
                                (map Account.us_id (Account.users t)) |}).
Proof.
  unfold Account.register.
  destruct (truthy (Credentials.email body)) eqn:H1; [ | left; reflexivity].
  destruct (truthy (Credentials.password body)); [ | left; reflexivity].
  destruct (truthy (Credentials.name body)); [ | left; reflexivity].
  cbn [negb orb].
  destruct (Account.hash bc (Credentials.password body)) as [hashed | ];
    [ | left; reflexivity].
  apply truthy_non_empty in H1. destruct H1 as (e & He & _).
  rewrite He. cbn [bind_text]. unfold Account.insert_user.
  destruct (Account.email_conflict (Some e) t) eqn:Hc.
  - left. reflexivity.
  - right. exists e, hashed. repeat split. exact Hc.
Qed.

End AccountFacts.

(** X16: registration keeps the users table well formed: after any
    register request (whatever the body and whatever bcrypt does) the
    emails are distinct, the keys are distinct, positive and not above the
    counter, if they were before. *)
Theorem register_keeps_emails_unique
        (bc : Account.Bcrypt) (now : Z) (body : Credentials.t) (t : Account.Users) :
  Account.users_ok t -> Account.users_ok (snd (Account.register bc now body t)).
Proof.
  intros (Hemails & Hids & Hrange).
  destruct (register_table bc now body t) as [-> | (e & hashed & _ & _ & Hfree & ->)];
    [repeat split; assumption | ].
  unfold Account.users_ok, Account.emails. cbn [snd Account.users Account.users_seq].
  destruct (autoincrement_fresh (Account.users_seq t)
                                (map Account.us_id (Account.users t))) as [Hseq Hfresh].
  repeat split.
  - rewrite flat_map_app. cbn [flat_map Account.us_email app].
    eapply Permutation_NoDup; [apply Permutation_cons_append | ].
    constructor; [apply emails_free, Hfree | exact Hemails].
  - rewrite map_app. cbn.
    eapply Permutation_NoDup; [apply Permutation_cons_append | ].
    constructor; [ | exact Hids].
    intros Hin. rewrite Forall_forall in Hfresh. specialize (Hfresh _ Hin). lia.
  - rewrite map_app. apply Forall_app. split.
    + eapply Forall_impl; [ | exact Hrange]. cbn. intros; lia.
    + constructor; [ | constructor]. cbn.
      pose proof (autoincrement_positive (Account.users_seq t)
                                         (map Account.us_id (Account.users t))).
      lia.
Qed.

Lemma register_keeps_emails_unique_witness :
  Account.users_ok Account.no_users
  /\ Account.users_ok Account.ada_registered.
Proof.
  assert (H : Account.users_ok Account.no_users).
  { repeat split; constructor. }
  split; [exact H | ].
  apply (register_keeps_emails_unique Account.sample_bcrypt 1 (Account.ada "s3cret")).
  exact H.
Defined.



(** X18: a registered user can log in: after a register request answered
    with a userId, a login with the same email and password, for which
    bcrypt.compare accepts the hash that bcrypt.hash produced, is answered
    200 with that userId, the email and the name, and the session carries
    the userId, which [requireLogin] accepts. *)
Theorem register_then_login
        (bc bc' : Account.Bcrypt) (now : Z) (body : Credentials.t)
        (session : option Z) (t : Account.Users)
        (userId : Z) (e pw hashed : string) :
  Credentials.email body = Str e ->
  Credentials.password body = Str pw ->
  Account.hash bc (Str pw) = Fulfilled hashed ->
  Account.compare bc' (Str pw) (Some hashed) = Fulfilled true ->
  fst (Account.register bc now body t) = Account.res_json (Account.JUserId userId) ->
  Account.login bc' body session (snd (Account.register bc now body t))
  = (Account.Answered
       (Account.res_json
          (Account.JLogin {| Identity.id := userId; Identity.email := Some e;
                             Identity.name := bind_text (Credentials.name body) |})),
     Some userId)
  /\ truthy_num (Some userId) = true.
Proof.
  intros He Hp Hh Hc.
  unfold Account.register, Account.login.
  destruct (truthy (Credentials.email body)) eqn:H1; [ | discriminate].
  destruct (truthy (Credentials.password body)) eqn:H2; [ | discriminate].
  destruct (truthy (Credentials.name body)) eqn:H3; [ | discriminate].
  cbn [negb orb]. rewrite Hp, Hh, He. cbn [bind_text].
  unfold Account.insert_user.
  destruct (Account.email_conflict (Some e) t) eqn:Hfree; [discriminate | ].
  cbn [fst snd Sql.err Sql.lastID run_ok]. intros [= <-].
  unfold Account.get_by_email. cbn [Account.users].
  rewrite find_after by exact Hfree.
  cbn [Account.us_email eq_text]. rewrite String.eqb_refl.
  cbn [Account.us_password]. rewrite Hc. split; [reflexivity | ].
  pose proof (autoincrement_positive (Account.users_seq t)
                                     (map Account.us_id (Account.users t))) as Hpos.
  simpl. apply negb_true_iff, Z.eqb_neq. lia.
Qed.

Lemma register_then_login_witness :
  fst (Account.register Account.sample_bcrypt 1 (Account.ada "s3cret") Account.no_users)
  = Account.res_json (Account.JUserId 1)
  /\ Account.login Account.sample_bcrypt (Account.ada "s3cret") None Account.ada_registered
     = (Account.Answered
          (Account.res_json
             (Account.JLogin {| Identity.id := 1; Identity.email := Some "ada@example.org";
                                Identity.name := Some "Ada" |}))%string,
        Some 1).
Proof.
  split; [reflexivity | ].
  apply (register_then_login
           Account.sample_bcrypt Account.sample_bcrypt 1 (Account.ada "s3cret") None
           Account.no_users 1 "ada@example.org" "s3cret" "$2b$10$s3cret");
    reflexivity.
Defined.

(** X19: login changes the session only after the password check: either
    the session is left as it was, or the table has a row with the email
    of the body for whose stored hash bcrypt.compare accepted the password,
    the answer is 200 with that row's id, email and name, and the session
    carries that row's id. *)
Theorem login_sets_session_only_after_check
        (bc : Account.Bcrypt) (body : Credentials.t) (session : option Z)
        (t : Account.Users) :
  snd (Account.login bc body session t) = session
  \/ exists row,
       In row (Account.users t)
       /\ Account.us_email row = bind_text (Credentials.email body)
       /\ Account.compare bc (Credentials.password body) (Account.us_password row)
          = Fulfilled true
       /\ Account.login bc body session t
          = (Account.Answered (Account.res_json (Account.JLogin (Account.identity_of row))),
             Some (Account.us_id row)).
Proof.
  unfold Account.login.
  destruct (negb (truthy (Credentials.email body))
            || negb (truthy (Credentials.password body))); [left; reflexivity | ].
  destruct (Account.get_by_email (bind_text (Credentials.email body)) t)
    as [row | ] eqn:Hget; [ | left; reflexivity].
  destruct (Account.compare bc (Credentials.password body) (Account.us_password row))
    as [[ | ] | ] eqn:Hc; try (left; reflexivity).
  right. exists row. apply find_some in Hget. destruct Hget as [Hin Heq].
  apply eq_text_true in Heq. repeat split; assumption.
Qed.

Lemma login_answer (bc : Account.Bcrypt) (body : Credentials.t)
      (session : option Z) (t : Account.Users) (identity : Identity.t) :
  fst (Account.login bc body session t)
  = Account.Answered (Account.res_json (Account.JLogin identity)) ->
  exists row,
    In row (Account.users t)
    /\ identity = Account.identity_of row
    /\ snd (Account.login bc body session t) = Some (Account.us_id row).
Proof.
  unfold Account.login.
  destruct (negb (truthy (Credentials.email body))
            || negb (truthy (Credentials.password body))); [discriminate | ].
  destruct (Account.get_by_email (bind_text (Credentials.email body)) t)
    as [row | ] eqn:Hget; [ | discriminate].
  destruct (Account.compare bc (Credentials.password body) (Account.us_password row))
    as [[ | ] | ]; try discriminate.
  cbn [fst snd]. intros [= <-]. exists row.
  apply find_some in Hget. destruct Hget as [Hin _].
  repeat split. exact Hin.
Qed.

(** X20: the user route answers with the identity the login answered with:
    on a well-formed users table, after a login answered 200 the route
    GET /api/user with the session that login left is answered 200 with the
    same id, email and name, never 401 or 404. *)
Theorem user_after_login
        (bc : Account.Bcrypt) (body : Credentials.t) (session : option Z)
        (t : Account.Users) (identity : Identity.t) :
  Account.users_ok t ->
  fst (Account.login bc body session t)
  = Account.Answered (Account.res_json (Account.JLogin identity)) ->
  Account.user (snd (Account.login bc body session t)) t
  = Account.res_json (Account.JUser identity).
Proof.
  intros (_ & Hids & Hrange) Hlogin.
  destruct (login_answer bc body session t identity Hlogin) as (row & Hin & -> & ->).
  unfold Account.user, Account.requireLogin.
  assert (Hpos : 1 <= Account.us_id row).
  { rewrite Forall_map, Forall_forall in Hrange. apply Hrange, Hin. }
  assert (Hgate : truthy_num (Some (Account.us_id row)) = true).
  { simpl. apply negb_true_iff, Z.eqb_neq. lia. }
  rewrite Hgate. cbn [negb].
  destruct (Account.get_by_id (Some (Account.us_id row)) t) as [row' | ] eqn:Hget.
  - apply find_some in Hget. destruct Hget as [Hin' Heq].
    simpl in Heq. apply Z.eqb_eq in Heq.
    rewrite (NoDup_map_same Account.us_id (Account.users t) row' row Hids Hin' Hin Heq).
    reflexivity.
  - exfalso. apply find_none with (x := row) in Hget; [ | exact Hin].
    simpl in Hget. rewrite Z.eqb_refl in Hget. discriminate.
Qed.

Lemma user_after_login_witness :
  Account.users_ok Account.ada_registered
  /\ Account.user (Some 1) Account.ada_registered
     = Account.res_json
         (Account.JUser {| Identity.id := 1; Identity.email := Some "ada@example.org";
                           Identity.name := Some "Ada" |})%string.
Proof.
  assert (H : Account.users_ok Account.ada_registered).
  { repeat split; cbn; repeat constructor; cbn; intuition lia. }
  split; [exact H | ].
  apply (user_after_login Account.sample_bcrypt (Account.ada "s3cret") None
                          Account.ada_registered _ H).
  reflexivity.
Defined.

(* ------------------------------------------------------------------ *)
(** ** Likes and the ids the aggregation fans out over *)

(** X21: a like always shows up in the user's liked ids: after an answered
    like the ids are the ids before together with the new one, in some
    order, whatever the clock says. *)
Theorem liked_video_is_listed
        (env : Env) (req : Request) (w : World) (uid : Z) (videoId : string) :
  logged_in req uid ->
  Body.videoId (body req) = Str videoId -> videoId <> ""%string ->
  Permutation (Some videoId :: listLikedIds (Some uid) (db w))
              (listLikedIds (Some uid) (db (snd (serve PostLikeVideo env req w)))).
Proof.
  intros session Hv Hne.
  assert (Ht : truthy (Body.videoId (body req)) = true).
  { apply truthy_non_empty. exists videoId. split; assumption. }
  unfold serve. rewrite (requireLogin_next req uid _ session).
  cbn [handler]. rewrite (like_video_inserts env req w Ht).
  unfold listLikedIds, select_liked.
  cbn [snd db insert_liked liked_videos_unique liked_conflict existsb liked_videos].
  rewrite filter_app. cbn [filter lk_user_id].
  destruct session as [Hu _]. rewrite Hu. cbn [eq_int]. rewrite Z.eqb_refl.
  rewrite Hv. cbn [bind_text].
  set (row := {| lk_id := _; lk_user_id := _; lk_video_id := Some videoId;
                 lk_liked_at := _ |}).
  change (Some videoId :: map lk_video_id
            (order_by_desc lk_liked_at
               (filter (fun r => eq_int (lk_user_id r) (Some uid)) (liked_videos (db w)))))
    with (map lk_video_id
            (row :: order_by_desc lk_liked_at
               (filter (fun r => eq_int (lk_user_id r) (Some uid)) (liked_videos (db w))))).
  apply Permutation_map.
  eapply perm_trans; [ | apply order_by_desc_perm].
  eapply perm_trans; [ | apply Permutation_cons_append].
  apply perm_skip, Permutation_sym, order_by_desc_perm.
Qed.

Lemma liked_video_is_listed_witness :
  logged_in (Sample.alice "A") 1
  /\ Permutation
       (Some "A"%string :: listLikedIds (Some 1) (db Sample.liked_ABC))
       (listLikedIds (Some 1) (db Library.liked_ABCA)).
Proof.
  assert (Hs : logged_in (Sample.alice "A") 1)
    by (split; [reflexivity | discriminate]).
  split; [exact Hs | ].
  apply (liked_video_is_listed
           (Sample.at_time 4) (Sample.alice "A") Sample.liked_ABC 1 "A" Hs eq_refl).
  discriminate.
Defined.

(** X22: after an unlike the video is gone from the user's liked ids, so
    the next liked-videos request of the user issues no upstream request
    for it, whatever the unlike was answered. *)
Theorem unliked_video_is_not_listed
        (env : Env) (req : Request) (w : World) (uid : Z) :
  logged_in req uid ->
  ~ In (Some (params_videoId req))
       (listLikedIds (Some uid) (db (snd (serve DeleteUnlikeVideo env req w)))).
Proof.
  intros session Hin.
  unfold serve in Hin. rewrite (requireLogin_next req uid _ session) in Hin.
  cbn [handler] in Hin. rewrite unlike_video_runs in Hin.
  destruct session as [Hu _]. rewrite Hu in Hin.
  unfold listLikedIds, select_liked in Hin.
  cbn [snd db delete_liked liked_videos] in Hin.
  apply in_map_iff in Hin. destruct Hin as (row & Hvid & Hrow).
  eapply Permutation_in in Hrow; [ | apply Permutation_sym, order_by_desc_perm].
  apply filter_In in Hrow. destruct Hrow as [Hrow Huser].
  apply filter_In in Hrow. destruct Hrow as [_ Hkept].
  unfold liked_matches in Hkept. rewrite Huser, Hvid in Hkept.
  simpl in Hkept. rewrite String.eqb_refl in Hkept. discriminate.
Qed.

Lemma unliked_video_is_not_listed_witness :
  logged_in (Sample.alice "A") 1
  /\ ~ In (Some "A"%string)
          (listLikedIds (Some 1)
             (db (snd (serve DeleteUnlikeVideo (Sample.at_time 5) (Sample.alice "A")
                         Library.liked_ABCA)))).
Proof.
  assert (Hs : logged_in (Sample.alice "A") 1)
    by (split; [reflexivity | discriminate]).
  split; [exact Hs | ].
  apply (unliked_video_is_not_listed
           (Sample.at_time 5) (Sample.alice "A") Library.liked_ABCA 1 Hs).
Defined.
